(** * pyedb configuration layer: cutout operations handler

    A shallow embedding of [src/pyedb/configuration/cfg_operations.py]
    ([CfgCutout], [CfgOperations]) over an explicit model of the layout
    database the handlers talk to, followed by models of the stackup and
    sources handlers whose behaviour is fixed by the specification and
    by [tests/legacy/system/test_edb_configuration_2p0.py]. *)

From Stdlib Require Import String List ZArith QArith Bool Lia DecimalString.
Import ListNotations.
Open Scope string_scope.
Open Scope list_scope.
#[local] Set Warnings "-register-all".

(** ** Python values, exceptions and dictionaries *)
Module Py.

(** The values a configuration document and the export can hold.  A
    [PyFloat] is carried around, never computed with. *)
Inductive value : Type :=
| PyNone
| PyBool (b : bool)
| PyInt (z : Z)
| PyFloat (q : Q)
| PyStr (s : string)
| PyList (l : list value)
| PyDict (d : list (string * value)).

(** Exceptions the modelled code can raise. *)
Inductive exn : Type :=
| IndexError
| KeyError (key : string)
| TypeError
| EngineError (msg : string).

Inductive result (A : Type) : Type :=
| Ok (a : A)
| Raise (e : exn).
Arguments Ok {A} a.
Arguments Raise {A} e.

(** A [dict] with string keys, in insertion order. *)
Definition dict : Type := list (string * value).

(** [d.get(k)] without the default: the first binding of [k]. *)
Fixpoint lookup (k : string) (d : dict) : option value :=
  match d with
  | [] => None
  | (k', v) :: rest => if String.eqb k k' then Some v else lookup k rest
  end.

(** [k in d]. *)
Definition dict_in (k : string) (d : dict) : bool :=
  match lookup k d with Some _ => true | None => false end.

(** [d.get(k)] and [d.get(k, default)]. *)
Definition get (d : dict) (k : string) : value :=
  match lookup k d with Some v => v | None => PyNone end.

Definition get_default (d : dict) (k : string) (default : value) : value :=
  match lookup k d with Some v => v | None => default end.

(** Truth value testing of [if x:]. *)
Definition truthy (v : value) : bool :=
  match v with
  | PyNone => false
  | PyBool b => b
  | PyInt z => negb (Z.eqb z 0)
  | PyFloat q => negb (Qeq_bool q 0)
  | PyStr s => negb (String.eqb s "")
  | PyList l => match l with [] => false | _ => true end
  | PyDict d => match d with [] => false | _ => true end
  end.

Definition str_list (names : list string) : value := PyList (map PyStr names).

End Py.
Import Py.

(** ** The layout database, as far as the handlers observe it *)
Module Db.

Definition Point : Type := (Q * Q)%type.

Record Layer : Type := mkLayer {
  layer_name : string;
  layer_type : string
}.

(** A primitive of the layout: [prim.layer.name], [prim.net_name] and
    [prim.polygon_data.points]. *)
Record Primitive : Type := mkPrimitive {
  prim_layer : string;
  prim_net : string;
  prim_points : list Point
}.

(** Modelled from the spec: the layout database, an external
    collaborator "exposing [stackup], [nets], ... [layout.find_primitive]".
    The stackup keeps its layers in order, the layout its primitives
    and its nets.  A net owns the primitives that carry its name; a net
    may own none. *)
Record Edb : Type := mkEdb {
  stackup_layers : list Layer;
  layout_primitives : list Primitive;
  layout_nets : list string
}.

(** [pedb.stackup.all_layers]: the layers by name. *)
Definition all_layers (db : Edb) : list (string * Layer) :=
  map (fun l => (layer_name l, l)) (stackup_layers db).

(** [name in pedb.stackup.all_layers]. *)
Definition in_all_layers (name : string) (db : Edb) : bool :=
  existsb (fun kl => String.eqb name (fst kl)) (all_layers db).

(** Modelled from the spec: [pedb.layout.find_primitive(layer_name=name)],
    the primitives of the layout on that layer. *)
Definition find_primitive (db : Edb) (name : string) : list Primitive :=
  filter (fun p => String.eqb (prim_layer p) name) (layout_primitives db).

(** [net.primitives] of the net called [name]. *)
Definition net_primitives (db : Edb) (name : string) : list Primitive :=
  filter (fun p => String.eqb (prim_net p) name) (layout_primitives db).

(** Modelled from the spec: [pedb.nets.nets.items()], every net with
    its primitives. *)
Definition nets (db : Edb) : list (string * list Primitive) :=
  map (fun n => (n, net_primitives db n)) (layout_nets db).

(** [polygon_data.points] as the Python list of [x, y] pairs. *)
Definition py_points (pts : list Point) : value :=
  PyList (map (fun p => PyList [PyFloat (fst p); PyFloat (snd p)]) pts).

(** Modelled from the spec: [pedb.stackup.add_document_layer(name=...)],
    which "creates a sentinel marker layer". *)
Definition add_document_layer (name : string) (db : Edb) : Edb :=
  mkEdb (stackup_layers db ++ [mkLayer name "document"])
        (layout_primitives db) (layout_nets db).

(** Modelled from the spec:
    [pedb.modeler.create_polygon(points, layer_name=..., net_name=...)],
    which "writes the boundary polygon onto it tagged with a dedicated
    net name".  The polygon joins the layout, and its net is created
    when the layout has none of that name ([test_08a_operations_cutout]
    finds the net [pyedb_cutout] among the nets afterwards). *)
Definition create_polygon (pts : list Point) (layer net : string) (db : Edb) : Edb :=
  mkEdb (stackup_layers db)
        (layout_primitives db ++ [mkPrimitive layer net pts])
        (if existsb (String.eqb net) (layout_nets db)
         then layout_nets db else layout_nets db ++ [net]).

End Db.
Import Db.

(** ** cfg_operations.py *)
Module CfgOps.

(** The name of the marker layer and of the net of its polygon. *)
Definition sentinel : string := "pyedb_cutout".

(** *** class CfgCutout

    The attributes of a handler; [self._pedb] is the live database,
    which the methods below receive as an argument. *)
Record CfgCutout : Type := mkCfgCutout {
  signal_list : value;
  reference_list : value;
  extent_type : value;
  expansion_size : value;
  use_round_corner : value;
  output_aedb_path : value;
  open_cutout_at_end : value;
  use_pyaedt_cutout : value;
  number_of_threads : value;
  use_pyaedt_extent_computing : value;
  extent_defeature : value;
  remove_single_pin_components : value;
  custom_extent : value;
  custom_extent_units : value;
  include_partial_instances : value;
  keep_voids : value;
  check_terminals : value;
  include_pingroups : value;
  expansion_factor : value;
  maximum_iterations : value;
  preserve_components_with_model : value;
  simple_pad_check : value;
  keep_lines_as_path : value
}.

(** [CfgCutout.__init__(pedb, **kwargs)]. *)
Definition CfgCutout_init (kwargs : dict) : CfgCutout :=
  mkCfgCutout
    (get kwargs "signal_list")
    (get kwargs "reference_list")
    (get kwargs "extent_type")
    (get kwargs "expansion_size")
    (get kwargs "use_round_corner")
    (get kwargs "output_aedb_path")
    (get kwargs "open_cutout_at_end")
    (get kwargs "use_pyaedt_cutout")
    (get kwargs "number_of_threads")
    (get kwargs "use_pyaedt_extent_computing")
    (get kwargs "extent_defeature")
    (get kwargs "remove_single_pin_components")
    (get kwargs "custom_extent")
    (get_default kwargs "custom_extent_units" (PyStr "meter"))
    (get kwargs "include_partial_instances")
    (get kwargs "keep_voids")
    (get kwargs "check_terminals")
    (get kwargs "include_pingroups")
    (get kwargs "expansion_factor")
    (get kwargs "maximum_iterations")
    (get kwargs "preserve_components_with_model")
    (get kwargs "simple_pad_check")
    (get kwargs "keep_lines_as_path").

(** Attribute assignments [self.x = v] of [get_data_from_db]. *)
Definition set_custom_extent (self : CfgCutout) (v : value) : CfgCutout :=
  mkCfgCutout
    (signal_list self)
    (reference_list self)
    (extent_type self)
    (expansion_size self)
    (use_round_corner self)
    (output_aedb_path self)
    (open_cutout_at_end self)
    (use_pyaedt_cutout self)
    (number_of_threads self)
    (use_pyaedt_extent_computing self)
    (extent_defeature self)
    (remove_single_pin_components self)
    v
    (custom_extent_units self)
    (include_partial_instances self)
    (keep_voids self)
    (check_terminals self)
    (include_pingroups self)
    (expansion_factor self)
    (maximum_iterations self)
    (preserve_components_with_model self)
    (simple_pad_check self)
    (keep_lines_as_path self).

Definition set_reference_list (self : CfgCutout) (v : value) : CfgCutout :=
  mkCfgCutout
    (signal_list self)
    v
    (extent_type self)
    (expansion_size self)
    (use_round_corner self)
    (output_aedb_path self)
    (open_cutout_at_end self)
    (use_pyaedt_cutout self)
    (number_of_threads self)
    (use_pyaedt_extent_computing self)
    (extent_defeature self)
    (remove_single_pin_components self)
    (custom_extent self)
    (custom_extent_units self)
    (include_partial_instances self)
    (keep_voids self)
    (check_terminals self)
    (include_pingroups self)
    (expansion_factor self)
    (maximum_iterations self)
    (preserve_components_with_model self)
    (simple_pad_check self)
    (keep_lines_as_path self).

Definition set_signal_list (self : CfgCutout) (v : value) : CfgCutout :=
  mkCfgCutout
    v
    (reference_list self)
    (extent_type self)
    (expansion_size self)
    (use_round_corner self)
    (output_aedb_path self)
    (open_cutout_at_end self)
    (use_pyaedt_cutout self)
    (number_of_threads self)
    (use_pyaedt_extent_computing self)
    (extent_defeature self)
    (remove_single_pin_components self)
    (custom_extent self)
    (custom_extent_units self)
    (include_partial_instances self)
    (keep_voids self)
    (check_terminals self)
    (include_pingroups self)
    (expansion_factor self)
    (maximum_iterations self)
    (preserve_components_with_model self)
    (simple_pad_check self)
    (keep_lines_as_path self).

(** [CfgCutout.export_properties]. *)
Definition export_properties (self : CfgCutout) : dict :=
  [ ("signal_list", signal_list self);
    ("reference_list", reference_list self);
    ("custom_extent", custom_extent self) ].

(** The loop over [self._pedb.nets.nets.items()], with [net_names] as
    accumulator.  [obj.primitives[0]] raises [IndexError] on a net
    without primitives, before the length test is reached. *)
Fixpoint collect_net_names (items : list (string * list Primitive))
    (net_names : list string) : result (list string) :=
  match items with
  | [] => Ok net_names
  | (name, primitives) :: rest =>
      match primitives with
      | [] => Raise IndexError
      | p0 :: _ =>
          if String.eqb (prim_layer p0) "pyedb_cutout" then
            collect_net_names rest net_names
          else if (0 <? length primitives)%nat then
            collect_net_names rest (net_names ++ [name])
          else
            collect_net_names rest net_names
      end
  end.

(** [CfgCutout.get_data_from_db]: the returned value ([None] when the
    method falls off its end) and the handler after the assignments. *)
Definition CfgCutout_get_data_from_db (self : CfgCutout) (db : Edb)
    : result (value * CfgCutout) :=
  if in_all_layers "pyedb_cutout" db then
    let polygons := find_primitive db "pyedb_cutout" in
    match polygons with
    | poly :: _ =>
        let self1 := set_custom_extent self (py_points (prim_points poly)) in
        match collect_net_names (nets db) [] with
        | Raise e => Raise e
        | Ok net_names =>
            let self2 := set_reference_list self1 (PyList []) in
            let self3 := set_signal_list self2 (str_list net_names) in
            Ok (PyDict (export_properties self3), self3)
        end
    | [] => Ok (PyDict (export_properties self), self)
    end
  else Ok (PyNone, self).

(** *** class CfgOperations *)
Record CfgOperations : Type := mkCfgOperations {
  op_cutout : option CfgCutout
}.

(** The parameters of [CfgCutout.__init__(self, pedb, **kwargs)] that
    are bound before the keyword arguments: a keyword of one of these
    names is a second value for the parameter, a [TypeError]. *)
Definition reserved_key (kwargs : dict) : bool :=
  dict_in "self" kwargs || dict_in "pedb" kwargs.

(** [CfgOperations.__init__(pedb, data)]; in
    [CfgCutout(pedb, **data["cutout"])] the value must be a mapping and
    may not repeat [self] or [pedb]. *)
Definition CfgOperations_init (data : dict) : result CfgOperations :=
  if dict_in "cutout" data then
    match get data "cutout" with
    | PyDict kwargs =>
        if reserved_key kwargs then Raise TypeError
        else Ok (mkCfgOperations (Some (CfgCutout_init kwargs)))
    | _ => Raise TypeError
    end
  else Ok (mkCfgOperations None).

(** [CfgOperations.get_data_from_db]: the returned mapping and the
    object with its fresh [op_cutout]. *)
Definition CfgOperations_get_data_from_db (self : CfgOperations) (db : Edb)
    : result (value * CfgOperations) :=
  let fresh := CfgCutout_init [] in
  match CfgCutout_get_data_from_db fresh db with
  | Raise e => Raise e
  | Ok (data_from_db, handler) =>
      if truthy data_from_db then
        Ok (PyDict [("cutout", data_from_db)], mkCfgOperations (Some handler))
      else
        Ok (PyDict [], mkCfgOperations (Some handler))
  end.

(** *** CfgOperations.apply

    [apply] drives the database, so it runs in a state-and-exception
    monad over the database and the log of the calls made on it. *)
Inductive DbCall : Type :=
| CallCutout (kwargs : dict)
| CallAddDocumentLayer (name : string)
| CallCreatePolygon (pts : list Point) (layer net : string).

Record World : Type := mkWorld {
  edb : Edb;
  calls : list DbCall
}.

Definition M (A : Type) : Type := World -> result (A * World).

Definition ret {A : Type} (a : A) : M A := fun w => Ok (a, w).

Definition bind {A B : Type} (m : M A) (k : A -> M B) : M B :=
  fun w => match m w with
           | Ok (a, w') => k a w'
           | Raise e => Raise e
           end.

Notation "x <- m ;; k" := (bind m (fun x => k))
  (at level 61, m at next level, right associativity).
Notation "m ;;; k" := (bind m (fun _ => k))
  (at level 61, right associativity).

(** [self._pedb.stackup.all_layers], read from the current state. *)
Definition read_all_layers : M (list (string * Layer)) :=
  fun w => Ok (all_layers (edb w), w).

Definition call_add_document_layer (name : string) : M unit :=
  fun w => Ok (tt, mkWorld (add_document_layer name (edb w))
                           (calls w ++ [CallAddDocumentLayer name])).

Definition call_create_polygon (pts : list Point) (layer net : string) : M unit :=
  fun w => Ok (tt, mkWorld (create_polygon pts layer net (edb w))
                           (calls w ++ [CallCreatePolygon pts layer net])).

Section Apply.

(** [CfgBase.get_attributes] (cfg_common.py) and the engine's
    [pedb.cutout], which is called with keyword arguments, returns the
    boundary polygon and may raise, are not part of cfg_operations.py. *)
Variable get_attributes : CfgCutout -> dict.
Variable pedb_cutout : dict -> Edb -> result (list Point * Edb).

Definition call_cutout (kwargs : dict) : M (list Point) :=
  fun w => match pedb_cutout kwargs (edb w) with
           | Ok (pts, db') => Ok (pts, mkWorld db' (calls w ++ [CallCutout kwargs]))
           | Raise e => Raise e
           end.

(** [CfgOperations.apply].  A handler object is true, [None] is not. *)
Definition CfgOperations_apply (self : CfgOperations) : M unit :=
  match op_cutout self with
  | Some cut =>
      polygon_points <- call_cutout (get_attributes cut) ;;
      layers <- read_all_layers ;;
      if negb (existsb (fun kl => String.eqb "pyedb_cutout" (fst kl)) layers) then
        call_add_document_layer "pyedb_cutout" ;;;
        call_create_polygon polygon_points "pyedb_cutout" "pyedb_cutout"
      else ret tt
  | None => ret tt
  end.

End Apply.

End CfgOps.

(** ** Example databases *)
Module Boards.
Import CfgOps.

Definition square : list Point := [(0, 0); (1, 0); (1, 1); (0, 1)]%Q.

Definition trace_p : Primitive := mkPrimitive "1_Top" "SFPA_RX_P" [(0, 0); (1, 0)]%Q.
Definition trace_n : Primitive := mkPrimitive "1_Top" "SFPA_RX_N" [(0, 1); (1, 1)]%Q.
Definition plane_gnd : Primitive := mkPrimitive "16_Bottom" "GND" square.
Definition trace_clk : Primitive := mkPrimitive "1_Top" "CLK" [(0, 0); (0, 1)]%Q.
Definition marker : Primitive := mkPrimitive "pyedb_cutout" "pyedb_cutout" square.

Definition two_layers : list Layer :=
  [mkLayer "1_Top" "signal"; mkLayer "16_Bottom" "signal"].

(** A board no cutout was applied to. *)
Definition board_plain : Edb :=
  mkEdb two_layers [trace_p; trace_n; plane_gnd; trace_clk]
        ["SFPA_RX_P"; "SFPA_RX_N"; "GND"; "CLK"].

(** The board after a cutout that kept three nets. *)
Definition board_cut : Edb :=
  mkEdb (two_layers ++ [mkLayer "pyedb_cutout" "document"])
        [trace_p; trace_n; plane_gnd; marker]
        ["SFPA_RX_P"; "SFPA_RX_N"; "GND"; "pyedb_cutout"].

(** The marker layer is there, its polygon is not. *)
Definition board_marker_only : Edb :=
  mkEdb (two_layers ++ [mkLayer "pyedb_cutout" "document"])
        [trace_p; trace_n; plane_gnd]
        ["SFPA_RX_P"; "SFPA_RX_N"; "GND"].

(** [GND] has a first primitive on the marker layer and a plane on
    [16_Bottom]. *)
Definition gnd_on_marker : Primitive := mkPrimitive "pyedb_cutout" "GND" square.

Definition board_mixed : Edb :=
  mkEdb (two_layers ++ [mkLayer "pyedb_cutout" "document"])
        [marker; gnd_on_marker; plane_gnd; trace_p]
        ["SFPA_RX_P"; "GND"; "pyedb_cutout"].

(** [NC] is a net without primitives. *)
Definition board_bare_net : Edb :=
  mkEdb (two_layers ++ [mkLayer "pyedb_cutout" "document"])
        [trace_p; marker]
        ["SFPA_RX_P"; "NC"; "pyedb_cutout"].

End Boards.

(** ** Export of the cutout section: [get_data_from_db] *)
Module CutoutExport.
Import CfgOps Boards.

(** The test the loop makes on a net: its first primitive lies off the
    marker layer. *)
Definition first_off_marker (primitives : list Primitive) : bool :=
  match primitives with
  | p0 :: _ => negb (String.eqb (prim_layer p0) sentinel)
  | [] => false
  end.

(** A net is not confined to the marker layer when one of its
    primitives lies on another layer. *)
Definition not_confined (primitives : list Primitive) : bool :=
  existsb (fun p => negb (String.eqb (prim_layer p) sentinel)) primitives.

(** The export the specification describes for a database: the signal
    list holds exactly the nets not confined to the marker layer, the
    reference list is empty. *)
Definition exports_unconfined_nets (db : Edb) : Prop :=
  exists (names : list string) (extent : value) (self' : CfgCutout),
    CfgCutout_get_data_from_db (CfgCutout_init []) db
      = Ok (PyDict [("signal_list", str_list names);
                    ("reference_list", PyList []);
                    ("custom_extent", extent)], self')
    /\ forall n, In n names <->
                 In n (layout_nets db) /\ not_confined (net_primitives db n) = true.

(** The result of [CfgOperations.get_data_from_db], without the object. *)
Definition exported (self : CfgOperations) (db : Edb) : result value :=
  match CfgOperations_get_data_from_db self db with
  | Ok (data, _) => Ok data
  | Raise e => Raise e
  end.

Lemma in_all_layers_sentinel (db : Edb) :
  in_all_layers "pyedb_cutout" db = in_all_layers sentinel db.
Proof. reflexivity. Qed.

Lemma collect_net_names_nonempty (items : list (string * list Primitive)) :
  forall acc,
    (forall n ps, In (n, ps) items -> ps <> []) ->
    collect_net_names items acc
      = Ok (acc ++ map fst (filter (fun it => first_off_marker (snd it)) items)).
Proof.
  induction items as [| [name ps] rest IH]; intros acc Hne.
  - simpl. now rewrite app_nil_r.
  - assert (Hps : ps <> []) by (apply (Hne name); now left).
    assert (Hrest : forall n qs, In (n, qs) rest -> qs <> [])
      by (intros n qs Hin; apply (Hne n); now right).
    destruct ps as [| p0 ps']; [congruence |].
    cbn [collect_net_names filter snd first_off_marker].
    unfold sentinel.
    destruct (String.eqb (prim_layer p0) "pyedb_cutout") eqn:Hlayer; cbn [negb].
    + now apply IH.
    + cbn [length Nat.ltb Nat.leb map fst].
      rewrite (IH _ Hrest), <- app_assoc. reflexivity.
Qed.

Lemma collect_net_names_bare (items : list (string * list Primitive)) :
  forall acc n,
    In (n, []) items ->
    collect_net_names items acc = Raise IndexError.
Proof.
  induction items as [| [name ps] rest IH]; intros acc n Hin.
  - destruct Hin.
  - destruct Hin as [Heq | Hin].
    + inversion Heq; subst. reflexivity.
    + destruct ps as [| p0 ps']; [reflexivity |].
      cbn [collect_net_names].
      destruct (String.eqb (prim_layer p0) "pyedb_cutout");
        [| destruct (0 <? length (p0 :: ps'))%nat]; eapply IH; eassumption.
Qed.

Lemma filter_nets (db : Edb) (f : list Primitive -> bool) :
  map fst (filter (fun it => f (snd it)) (nets db))
    = filter (fun n => f (net_primitives db n)) (layout_nets db).
Proof.
  unfold nets.
  induction (layout_nets db) as [| n ns IH]; [reflexivity |].
  cbn [map filter snd]. destruct (f (net_primitives db n)); cbn [map fst]; now rewrite IH.
Qed.

Lemma nets_nonempty (db : Edb) :
  (forall n, In n (layout_nets db) -> net_primitives db n <> []) ->
  forall n ps, In (n, ps) (nets db) -> ps <> [].
Proof.
  intros Hne n ps Hin. unfold nets in Hin.
  apply in_map_iff in Hin. destruct Hin as [m [Heq Hm]].
  inversion Heq; subst. now apply Hne.
Qed.

(** C1, as the code has it.  When the marker layer is in the stackup,
    carries a polygon, and every net owns a primitive, the export lists
    as [signal_list] exactly the nets whose first primitive lies off the
    marker layer, in the order of the nets, [reference_list] is the
    empty list and [custom_extent] holds the points of the first polygon
    of the marker layer. *)
Theorem cutout_export_lists_nets_off_marker
    (self : CfgCutout) (db : Edb) (poly : Primitive) (others : list Primitive) :
  in_all_layers sentinel db = true ->
  find_primitive db sentinel = poly :: others ->
  (forall n, In n (layout_nets db) -> net_primitives db n <> []) ->
  exists self',
    CfgCutout_get_data_from_db self db
      = Ok (PyDict
              [("signal_list",
                str_list (filter (fun n => first_off_marker (net_primitives db n))
                                 (layout_nets db)));
               ("reference_list", PyList []);
               ("custom_extent", py_points (prim_points poly))],
            self').
Proof.
  intros Hlayer Hpoly Hne.
  unfold CfgCutout_get_data_from_db.
  rewrite in_all_layers_sentinel, Hlayer.
  change (find_primitive db "pyedb_cutout") with (find_primitive db sentinel).
  rewrite Hpoly.
  rewrite (collect_net_names_nonempty (nets db) [] (nets_nonempty db Hne)).
  cbn [app]. rewrite filter_nets.
  eexists. reflexivity.
Qed.

Lemma cutout_export_lists_nets_off_marker_witness :
  in_all_layers sentinel board_cut = true /\
  find_primitive board_cut sentinel = [marker] /\
  exists self',
    CfgCutout_get_data_from_db (CfgCutout_init []) board_cut
      = Ok (PyDict
              [("signal_list", str_list ["SFPA_RX_P"; "SFPA_RX_N"; "GND"]);
               ("reference_list", PyList []);
               ("custom_extent", py_points square)],
            self').
Proof.
  split; [reflexivity | split; [reflexivity |]].
  apply (cutout_export_lists_nets_off_marker
           (CfgCutout_init []) board_cut marker []); try reflexivity.
  intros n Hin. cbn in Hin.
  destruct Hin as [<- | [<- | [<- | [<- | []]]]]; discriminate.
Defined.

(** C1 as the specification words it fails on [board_mixed]: [GND] has
    a plane on [16_Bottom], so it is not confined to the marker layer,
    yet its first primitive lies on the marker layer and the loop skips
    it. *)
Lemma cutout_export_misses_net_on_marker :
  in_all_layers sentinel board_mixed = true /\
  find_primitive board_mixed sentinel <> [] /\
  ~ exports_unconfined_nets board_mixed.
Proof.
  split; [reflexivity | split; [discriminate |]].
  intros [names [extent [self' [Hrun Hnames]]]].
  vm_compute in Hrun.
  injection Hrun as Hsig _ _.
  assert (Hgnd : In "GND" names).
  { apply Hnames. split; [cbn; tauto | reflexivity]. }
  destruct names as [| n0 [| n1 rest]]; cbn in Hsig; try discriminate.
  injection Hsig as <-.
  destruct Hgnd as [Heq | []]. discriminate.
Qed.

(** C2.  Without the marker layer in the stackup the handler returns
    [None], raises nothing and leaves its attributes alone, and
    [CfgOperations.get_data_from_db] returns the empty mapping. *)
Theorem marker_absent_exports_nothing
    (self : CfgCutout) (ops : CfgOperations) (db : Edb) :
  in_all_layers sentinel db = false ->
  CfgCutout_get_data_from_db self db = Ok (PyNone, self) /\
  exported ops db = Ok (PyDict []).
Proof.
  intros Habsent.
  assert (Hcut : forall c, CfgCutout_get_data_from_db c db = Ok (PyNone, c)).
  { intros c. unfold CfgCutout_get_data_from_db.
    now rewrite in_all_layers_sentinel, Habsent. }
  split; [apply Hcut |].
  unfold exported, CfgOperations_get_data_from_db.
  rewrite Hcut. reflexivity.
Qed.

Lemma marker_absent_exports_nothing_witness :
  in_all_layers sentinel board_plain = false /\
  CfgCutout_get_data_from_db (CfgCutout_init [("signal_list", str_list ["CLK"])])
                             board_plain
    = Ok (PyNone, CfgCutout_init [("signal_list", str_list ["CLK"])]) /\
  exported (mkCfgOperations None) board_plain = Ok (PyDict []).
Proof.
  split; [reflexivity |].
  apply (marker_absent_exports_nothing
           (CfgCutout_init [("signal_list", str_list ["CLK"])])
           (mkCfgOperations None) board_plain).
  reflexivity.
Defined.

(** C10.  With the marker layer in the stackup and no primitive on it,
    the fresh handler still returns its export dictionary, and
    [CfgOperations.get_data_from_db] returns a [cutout] entry whose
    three fields are all [None]. *)
Theorem marker_without_polygon_exports_none_fields
    (ops : CfgOperations) (db : Edb) :
  in_all_layers sentinel db = true ->
  find_primitive db sentinel = [] ->
  CfgCutout_get_data_from_db (CfgCutout_init []) db
    = Ok (PyDict [("signal_list", PyNone);
                  ("reference_list", PyNone);
                  ("custom_extent", PyNone)], CfgCutout_init []) /\
  exported ops db
    = Ok (PyDict [("cutout",
                   PyDict [("signal_list", PyNone);
                           ("reference_list", PyNone);
                           ("custom_extent", PyNone)])]).
Proof.
  intros Hlayer Hnone.
  assert (Hcut : CfgCutout_get_data_from_db (CfgCutout_init []) db
                 = Ok (PyDict (export_properties (CfgCutout_init [])),
                       CfgCutout_init [])).
  { unfold CfgCutout_get_data_from_db.
    rewrite in_all_layers_sentinel, Hlayer.
    change (find_primitive db "pyedb_cutout") with (find_primitive db sentinel).
    now rewrite Hnone. }
  split; [exact Hcut |].
  unfold exported, CfgOperations_get_data_from_db.
  rewrite Hcut. reflexivity.
Qed.

Lemma marker_without_polygon_exports_none_fields_witness :
  in_all_layers sentinel board_marker_only = true /\
  find_primitive board_marker_only sentinel = [] /\
  exported (mkCfgOperations None) board_marker_only
    = Ok (PyDict [("cutout",
                   PyDict [("signal_list", PyNone);
                           ("reference_list", PyNone);
                           ("custom_extent", PyNone)])]).
Proof.
  split; [reflexivity | split; [reflexivity |]].
  apply (marker_without_polygon_exports_none_fields
           (mkCfgOperations None) board_marker_only); reflexivity.
Defined.

(** C7.  A [cutout] section that repeats [self] or [pedb] does not load
    ([TypeError]).  Every other section loads, whatever its parameters,
    and for every database [CfgOperations.get_data_from_db] on the
    loaded object returns what it returns on an object loaded without a
    section, and leaves the same object behind: the method starts from a
    fresh handler and reads the database only. *)
Theorem export_ignores_loaded_cutout (kwargs : dict) (db : Edb) :
  if reserved_key kwargs then
    CfgOperations_init [("cutout", PyDict kwargs)] = Raise TypeError
  else
    exists loaded bare : CfgOperations,
      CfgOperations_init [("cutout", PyDict kwargs)] = Ok loaded /\
      op_cutout loaded = Some (CfgCutout_init kwargs) /\
      CfgOperations_init [] = Ok bare /\
      op_cutout bare = None /\
      CfgOperations_get_data_from_db loaded db
        = CfgOperations_get_data_from_db bare db.
Proof.
  unfold CfgOperations_init. cbn [dict_in lookup get String.eqb].
  change (dict_in "cutout" [("cutout", PyDict kwargs)]) with true.
  change (get [("cutout", PyDict kwargs)] "cutout") with (PyDict kwargs).
  cbv iota.
  destruct (reserved_key kwargs); [reflexivity |].
  exists (mkCfgOperations (Some (CfgCutout_init kwargs))), (mkCfgOperations None).
  repeat split.
Qed.

(** A section with parameters loads and is ignored by the export; a
    section that names [pedb] does not load. *)
Lemma export_ignores_loaded_cutout_witness :
  (exists loaded bare : CfgOperations,
      CfgOperations_init
        [("cutout", PyDict [("signal_list", str_list ["CLK"]);
                            ("extent_type", PyStr "ConvexHull")])] = Ok loaded /\
      op_cutout loaded
        = Some (CfgCutout_init [("signal_list", str_list ["CLK"]);
                                ("extent_type", PyStr "ConvexHull")]) /\
      CfgOperations_init [] = Ok bare /\
      op_cutout bare = None /\
      CfgOperations_get_data_from_db loaded board_cut
        = CfgOperations_get_data_from_db bare board_cut) /\
  CfgOperations_init [("cutout", PyDict [("pedb", PyNone)])] = Raise TypeError.
Proof.
  split.
  - exact (export_ignores_loaded_cutout
             [("signal_list", str_list ["CLK"]); ("extent_type", PyStr "ConvexHull")]
             board_cut).
  - exact (export_ignores_loaded_cutout [("pedb", PyNone)] board_cut).
Defined.

(** X2.  A net without primitives stops the export: [obj.primitives[0]]
    raises [IndexError], whatever the other nets hold. *)
Theorem cutout_export_raises_on_bare_net
    (self : CfgCutout) (db : Edb) (poly : Primitive) (others : list Primitive)
    (n : string) :
  in_all_layers sentinel db = true ->
  find_primitive db sentinel = poly :: others ->
  In n (layout_nets db) ->
  net_primitives db n = [] ->
  CfgCutout_get_data_from_db self db = Raise IndexError.
Proof.
  intros Hlayer Hpoly Hin Hbare.
  unfold CfgCutout_get_data_from_db.
  rewrite in_all_layers_sentinel, Hlayer.
  change (find_primitive db "pyedb_cutout") with (find_primitive db sentinel).
  rewrite Hpoly.
  rewrite (collect_net_names_bare (nets db) [] n); [reflexivity |].
  unfold nets. apply in_map_iff. exists n. now rewrite Hbare.
Qed.

Lemma cutout_export_raises_on_bare_net_witness :
  In "NC" (layout_nets board_bare_net) /\
  net_primitives board_bare_net "NC" = [] /\
  CfgCutout_get_data_from_db (CfgCutout_init []) board_bare_net = Raise IndexError.
Proof.
  split; [cbn; tauto | split; [reflexivity |]].
  apply (cutout_export_raises_on_bare_net
           (CfgCutout_init []) board_bare_net marker [] "NC");
    try reflexivity.
  cbn. tauto.
Defined.

Lemma filter_ext_in_nets (f g : string -> bool) (l : list string) :
  (forall n, In n l -> f n = g n) -> filter f l = filter g l.
Proof.
  induction l as [| n ns IH]; intros Hext; [reflexivity |].
  cbn [filter]. rewrite (Hext n (or_introl eq_refl)).
  rewrite IH; [reflexivity |]. intros m Hm. apply Hext. now right.
Qed.

(** X3.  The wording of the specification holds on the databases where no
    net has its first primitive on the marker layer and another one
    elsewhere: there the nets exported are exactly the nets not
    confined to the marker layer. *)
Theorem cutout_export_on_unmixed_nets
    (db : Edb) (poly : Primitive) (others : list Primitive) :
  in_all_layers sentinel db = true ->
  find_primitive db sentinel = poly :: others ->
  (forall n, In n (layout_nets db) -> net_primitives db n <> []) ->
  (forall n, In n (layout_nets db) ->
             first_off_marker (net_primitives db n)
               = not_confined (net_primitives db n)) ->
  exports_unconfined_nets db.
Proof.
  intros Hlayer Hpoly Hne Hunmixed.
  unfold exports_unconfined_nets.
  exists (filter (fun n => not_confined (net_primitives db n)) (layout_nets db)),
         (py_points (prim_points poly)).
  unfold CfgCutout_get_data_from_db.
  rewrite in_all_layers_sentinel, Hlayer.
  change (find_primitive db "pyedb_cutout") with (find_primitive db sentinel).
  rewrite Hpoly.
  rewrite (collect_net_names_nonempty (nets db) [] (nets_nonempty db Hne)).
  cbn [app]. rewrite filter_nets.
  rewrite (filter_ext_in_nets _ _ _ Hunmixed).
  eexists. split; [reflexivity |].
  intros n. apply filter_In.
Qed.

Lemma cutout_export_on_unmixed_nets_witness :
  in_all_layers sentinel board_cut = true /\
  find_primitive board_cut sentinel = [marker] /\
  exports_unconfined_nets board_cut.
Proof.
  split; [reflexivity | split; [reflexivity |]].
  apply (cutout_export_on_unmixed_nets board_cut marker []); try reflexivity.
  - intros n Hin. cbn in Hin.
    destruct Hin as [<- | [<- | [<- | [<- | []]]]]; discriminate.
  - intros n Hin. cbn in Hin.
    destruct Hin as [<- | [<- | [<- | [<- | []]]]]; reflexivity.
Defined.

(** Any two objects over the same database export the same. *)
Lemma export_ignores_object (ops1 ops2 : CfgOperations) (db : Edb) :
  CfgOperations_get_data_from_db ops1 db = CfgOperations_get_data_from_db ops2 db.
Proof.
  unfold CfgOperations_get_data_from_db.
  destruct (CfgCutout_get_data_from_db (CfgCutout_init []) db) as [[data h] | e];
    reflexivity.
Qed.

End CutoutExport.

(** ** Applying the cutout section: [CfgOperations.apply] *)
Module CutoutApply.
Import CfgOps Boards.

(** Modelled from the spec: [CfgBase.get_attributes] of cfg_common.py,
    which is not among the sources; the "attribute-to-dict export"
    of the base class, taken as the attributes that are set. *)
Definition set_attributes (self : CfgCutout) : dict :=
  filter (fun kv => match snd kv with PyNone => false | _ => true end)
    [("signal_list", signal_list self);
     ("reference_list", reference_list self);
     ("extent_type", extent_type self);
     ("expansion_size", expansion_size self);
     ("use_round_corner", use_round_corner self);
     ("output_aedb_path", output_aedb_path self);
     ("open_cutout_at_end", open_cutout_at_end self);
     ("use_pyaedt_cutout", use_pyaedt_cutout self);
     ("number_of_threads", number_of_threads self);
     ("use_pyaedt_extent_computing", use_pyaedt_extent_computing self);
     ("extent_defeature", extent_defeature self);
     ("remove_single_pin_components", remove_single_pin_components self);
     ("custom_extent", custom_extent self);
     ("custom_extent_units", custom_extent_units self);
     ("include_partial_instances", include_partial_instances self);
     ("keep_voids", keep_voids self);
     ("check_terminals", check_terminals self);
     ("include_pingroups", include_pingroups self);
     ("expansion_factor", expansion_factor self);
     ("maximum_iterations", maximum_iterations self);
     ("preserve_components_with_model", preserve_components_with_model self);
     ("simple_pad_check", simple_pad_check self);
     ("keep_lines_as_path", keep_lines_as_path self)].

Definition names_of (v : value) : list string :=
  match v with
  | PyList l => flat_map (fun x => match x with PyStr s => [s] | _ => [] end) l
  | _ => []
  end.

(** Modelled from the spec: the engine's [cutout], which is not among
    the sources.  "Applying a cutout with signal nets {A,B} and
    reference {G} must result in the net set becoming exactly
    {A,B,G,<sentinel>} when starting from a superset", the sentinel
    being what [apply] adds afterwards: the nets outside the two lists
    leave the layout with their primitives, and the stackup stays.  The
    boundary returned is made of the points of what is kept. *)
Definition prune (keep : list string) (db : Edb) : result (list Point * Edb) :=
  let kept := fun n => existsb (String.eqb n) keep in
  let primitives := filter (fun p => kept (prim_net p)) (layout_primitives db) in
  Ok (flat_map prim_points primitives,
      mkEdb (stackup_layers db) primitives (filter kept (layout_nets db))).

Definition engine_cutout (kwargs : dict) (db : Edb) : result (list Point * Edb) :=
  prune (names_of (get kwargs "signal_list")
           ++ names_of (get kwargs "reference_list")) db.

(** An engine that spares, besides the listed nets, the net of the
    marker polygon. *)
Definition engine_keeping_marker (kwargs : dict) (db : Edb)
    : result (list Point * Edb) :=
  prune (names_of (get kwargs "signal_list")
           ++ names_of (get kwargs "reference_list") ++ [sentinel]) db.

(** The operations document of [test_16b_export_cutout], and the
    object it loads as. *)
Definition cutout_kwargs : dict :=
  [("signal_list", str_list ["SFPA_RX_P"; "SFPA_RX_N"]);
   ("reference_list", str_list ["GND"])].

Definition cutout_doc : dict := [("cutout", PyDict cutout_kwargs)].

Definition cutout_loaded : CfgOperations :=
  mkCfgOperations (Some (CfgCutout_init cutout_kwargs)).

(** The engine does not edit the stackup. *)
Definition keeps_stackup (cutout : dict -> Edb -> result (list Point * Edb)) : Prop :=
  forall kwargs db pts db',
    cutout kwargs db = Ok (pts, db') -> stackup_layers db' = stackup_layers db.


(** Applying the document twice ends in the state applying it once
    ends in. *)
Definition apply_twice_is_apply_once
    (get_attributes : CfgCutout -> dict)
    (cutout : dict -> Edb -> result (list Point * Edb))
    (data : dict) (db : Edb) : Prop :=
  forall self w1,
    CfgOperations_init data = Ok self ->
    CfgOperations_apply get_attributes cutout self (mkWorld db []) = Ok (tt, w1) ->
    exists w2,
      CfgOperations_apply get_attributes cutout self w1 = Ok (tt, w2) /\
      edb w2 = edb w1.

Section ApplyFacts.

Variable get_attributes : CfgCutout -> dict.
Variable pedb_cutout : dict -> Edb -> result (list Point * Edb).

Let apply := CfgOperations_apply get_attributes pedb_cutout.

(** What one [apply] does once the engine has returned: the marker
    layer and its polygon are added only when the layer is missing. *)
Lemma apply_after_cutout (self : CfgOperations) (cut : CfgCutout)
    (w : World) (pts : list Point) (db1 : Edb) :
  op_cutout self = Some cut ->
  pedb_cutout (get_attributes cut) (edb w) = Ok (pts, db1) ->
  apply self w
    = Ok (tt,
          if in_all_layers sentinel db1 then
            mkWorld db1 (calls w ++ [CallCutout (get_attributes cut)])
          else
            mkWorld (create_polygon pts sentinel sentinel
                       (add_document_layer sentinel db1))
                    (((calls w ++ [CallCutout (get_attributes cut)])
                        ++ [CallAddDocumentLayer sentinel])
                        ++ [CallCreatePolygon pts sentinel sentinel])).
Proof.
  intros Hcut Hrun.
  unfold apply, CfgOperations_apply. rewrite Hcut.
  unfold bind, call_cutout. rewrite Hrun.
  unfold read_all_layers. cbn [edb calls].
  change (existsb (fun kl => String.eqb "pyedb_cutout" (fst kl)) (all_layers db1))
    with (in_all_layers sentinel db1).
  destruct (in_all_layers sentinel db1); reflexivity.
Qed.

Lemma apply_cutout_raises (self : CfgOperations) (cut : CfgCutout)
    (w : World) (e : exn) :
  op_cutout self = Some cut ->
  pedb_cutout (get_attributes cut) (edb w) = Raise e ->
  apply self w = Raise e.
Proof.
  intros Hcut Hrun.
  unfold apply, CfgOperations_apply. rewrite Hcut.
  unfold bind, call_cutout. now rewrite Hrun.
Qed.

Lemma in_all_layers_stackup (name : string) (db db' : Edb) :
  stackup_layers db' = stackup_layers db ->
  in_all_layers name db' = in_all_layers name db.
Proof. intros H. unfold in_all_layers, all_layers. now rewrite H. Qed.

(** After an [apply] that ran the cutout, the marker layer is in the
    stackup. *)
Lemma marker_present_after_apply (self : CfgOperations) (cut : CfgCutout)
    (w w1 : World) :
  op_cutout self = Some cut ->
  apply self w = Ok (tt, w1) ->
  in_all_layers sentinel (edb w1) = true.
Proof.
  intros Hcut Happly.
  destruct (pedb_cutout (get_attributes cut) (edb w)) as [[pts db1] | e] eqn:Hrun.
  - rewrite (apply_after_cutout self cut w pts db1 Hcut Hrun) in Happly.
    injection Happly as <-.
    destruct (in_all_layers sentinel db1) eqn:Hin; cbn [edb]; [exact Hin |].
    unfold in_all_layers, all_layers, create_polygon, add_document_layer.
    cbn [stackup_layers].
    rewrite map_app, existsb_app. cbn. now rewrite orb_true_r.
  - rewrite (apply_cutout_raises self cut w e Hcut Hrun) in Happly. discriminate.
Qed.



(** C9.  A mapping without a [cutout] key loads with [op_cutout] set to
    [None], and [apply] then returns at once: no call reaches the
    database, nothing is raised, the state is the one it started in. *)
Theorem apply_without_cutout_section_skips (data : dict) :
  dict_in "cutout" data = false ->
  exists self,
    CfgOperations_init data = Ok self /\
    op_cutout self = None /\
    forall w : World, apply self w = Ok (tt, w).
Proof.
  intros Hkey.
  exists (mkCfgOperations None).
  unfold CfgOperations_init. rewrite Hkey.
  repeat split.
Qed.

End ApplyFacts.

Lemma engine_cutout_keeps_stackup : keeps_stackup engine_cutout.
Proof.
  intros kwargs db pts db' Hrun.
  unfold engine_cutout, prune in Hrun. injection Hrun as _ <-. reflexivity.
Qed.

(** The state [board_plain] is in after the document was applied once. *)
Definition applied_once : World :=
  mkWorld
    (mkEdb (two_layers ++ [mkLayer "pyedb_cutout" "document"])
           [trace_p; trace_n; plane_gnd;
            mkPrimitive "pyedb_cutout" "pyedb_cutout"
              (prim_points trace_p ++ prim_points trace_n ++ square)]
           ["SFPA_RX_P"; "SFPA_RX_N"; "GND"; "pyedb_cutout"])
    [CallCutout (set_attributes (CfgCutout_init cutout_kwargs));
     CallAddDocumentLayer "pyedb_cutout";
     CallCreatePolygon (prim_points trace_p ++ prim_points trace_n ++ square)
                       "pyedb_cutout" "pyedb_cutout"].

Lemma first_apply_on_board_plain :
  CfgOperations_init cutout_doc = Ok cutout_loaded /\
  CfgOperations_apply set_attributes engine_cutout cutout_loaded
                      (mkWorld board_plain [])
    = Ok (tt, applied_once).
Proof. split; vm_compute; reflexivity. Qed.



(** The condition on the second engine call is needed.  An engine
    that keeps the listed nets only removes, on its second call, the
    polygon of the marker layer with its net; the layer is still in the
    stackup, and [apply] does not write the polygon again. *)
Lemma second_apply_loses_marker_polygon :
  ~ apply_twice_is_apply_once set_attributes engine_cutout cutout_doc board_plain.
Proof.
  intros Hsame.
  destruct first_apply_on_board_plain as [Hinit Hfirst].
  destruct (Hsame cutout_loaded applied_once Hinit Hfirst) as [w2 [Hrun Hstate]].
  vm_compute in Hrun.
  injection Hrun as <-.
  apply (f_equal layout_nets) in Hstate.
  vm_compute in Hstate. discriminate.
Qed.

(** With the engine that spares the marker, the second call changes
    nothing and the document applied twice gives the state it gives
    applied once. *)
Lemma apply_twice_with_marker_kept :
  apply_twice_is_apply_once set_attributes engine_keeping_marker
                            cutout_doc board_plain.
Proof.
  intros self w1 Hinit Hfirst.
  vm_compute in Hinit. injection Hinit as <-.
  vm_compute in Hfirst. injection Hfirst as <-.
  eexists. split; vm_compute; reflexivity.
Qed.

Lemma apply_without_cutout_section_skips_witness :
  dict_in "cutout" [("unknown", PyDict [])] = false /\
  exists self,
    CfgOperations_init [("unknown", PyDict [])] = Ok self /\
    op_cutout self = None /\
    forall w : World,
      CfgOperations_apply set_attributes engine_cutout self w = Ok (tt, w).
Proof.
  split; [reflexivity |].
  apply (apply_without_cutout_section_skips set_attributes engine_cutout
           [("unknown", PyDict [])]).
  reflexivity.
Defined.

End CutoutApply.

(** ** [apply] followed by [get_data_from_db] *)
Module CutoutRoundTrip.
Import CfgOps Boards CutoutExport CutoutApply.

(** What the engine leaves behind, as [apply] expects it: the marker
    is nowhere yet, every primitive belongs to a net of the layout and
    every net owns a primitive. *)
Record clean_cut (db : Edb) : Prop := mkCleanCut {
  no_marker_layer : in_all_layers sentinel db = false;
  no_marker_primitive :
    forall p, In p (layout_primitives db) -> String.eqb (prim_layer p) sentinel = false;
  primitives_on_nets :
    forall p, In p (layout_primitives db) -> In (prim_net p) (layout_nets db);
  no_marker_net : existsb (String.eqb sentinel) (layout_nets db) = false;
  nets_not_bare :
    forall n, In n (layout_nets db) -> net_primitives db n <> []
}.

(** The database once [apply] has marked it. *)
Definition marked (pts : list Point) (db : Edb) : Edb :=
  create_polygon pts sentinel sentinel (add_document_layer sentinel db).

Lemma filter_none {A : Type} (f : A -> bool) (l : list A) :
  (forall x, In x l -> f x = false) -> filter f l = [].
Proof.
  induction l as [| x xs IH]; intros Hnone; [reflexivity |].
  cbn [filter]. rewrite (Hnone x (or_introl eq_refl)).
  apply IH. intros y Hy. apply Hnone. now right.
Qed.

Lemma filter_all {A : Type} (f : A -> bool) (l : list A) :
  (forall x, In x l -> f x = true) -> filter f l = l.
Proof.
  induction l as [| x xs IH]; intros Hall; [reflexivity |].
  cbn [filter]. rewrite (Hall x (or_introl eq_refl)).
  f_equal. apply IH. intros y Hy. apply Hall. now right.
Qed.

Lemma not_in_nets (db : Edb) (n : string) :
  existsb (String.eqb sentinel) (layout_nets db) = false ->
  In n (layout_nets db) -> String.eqb sentinel n = false.
Proof.
  intros Hno Hin.
  destruct (String.eqb sentinel n) eqn:Heq; [| reflexivity].
  rewrite <- Hno. symmetry. apply existsb_exists. now exists n.
Qed.

Section Marked.

Variable pts : list Point.
Variable db : Edb.
Hypothesis Hclean : clean_cut db.

Lemma marked_layers : in_all_layers sentinel (marked pts db) = true.
Proof.
  unfold marked, in_all_layers, all_layers, create_polygon, add_document_layer.
  cbn [stackup_layers]. rewrite map_app, existsb_app. cbn.
  now rewrite orb_true_r.
Qed.

Lemma marked_polygon :
  find_primitive (marked pts db) sentinel = [mkPrimitive sentinel sentinel pts].
Proof.
  unfold marked, find_primitive, create_polygon, add_document_layer.
  cbn [layout_primitives]. rewrite filter_app.
  rewrite (filter_none _ _ (no_marker_primitive db Hclean)).
  reflexivity.
Qed.

Lemma marked_nets : layout_nets (marked pts db) = layout_nets db ++ [sentinel].
Proof.
  unfold marked, create_polygon, add_document_layer. cbn [layout_nets].
  now rewrite (no_marker_net db Hclean).
Qed.

Lemma marked_net_primitives (n : string) :
  In n (layout_nets db) ->
  net_primitives (marked pts db) n = net_primitives db n.
Proof.
  intros Hin.
  unfold marked, net_primitives, create_polygon, add_document_layer.
  cbn [layout_primitives]. rewrite filter_app. cbn [filter prim_net].
  rewrite (not_in_nets db n (no_marker_net db Hclean) Hin).
  apply app_nil_r.
Qed.

Lemma marked_marker_net :
  net_primitives (marked pts db) sentinel = [mkPrimitive sentinel sentinel pts].
Proof.
  unfold marked, net_primitives, create_polygon, add_document_layer.
  cbn [layout_primitives]. rewrite filter_app.
  rewrite filter_none; [reflexivity |].
  intros p Hp.
  destruct (String.eqb (prim_net p) sentinel) eqn:Heq; [| reflexivity].
  apply String.eqb_eq in Heq.
  pose proof (primitives_on_nets db Hclean p Hp) as Hin.
  pose proof (not_in_nets db _ (no_marker_net db Hclean) Hin) as Hne.
  rewrite Heq, String.eqb_refl in Hne. discriminate.
Qed.

Lemma marked_signal_nets :
  filter (fun n => first_off_marker (net_primitives (marked pts db) n))
         (layout_nets (marked pts db))
    = layout_nets db.
Proof.
  rewrite marked_nets, filter_app. cbn [filter].
  rewrite marked_marker_net. cbn [first_off_marker prim_layer].
  rewrite String.eqb_refl. cbn [negb]. rewrite app_nil_r.
  apply filter_all. intros n Hin.
  rewrite (marked_net_primitives n Hin).
  pose proof (nets_not_bare db Hclean n Hin) as Hne.
  destruct (net_primitives db n) as [| p0 ps] eqn:Hps; [congruence |].
  cbn [first_off_marker].
  assert (Hp0 : In p0 (layout_primitives db)).
  { assert (Hin0 : In p0 (net_primitives db n)) by (rewrite Hps; now left).
    unfold net_primitives in Hin0. now apply filter_In in Hin0. }
  now rewrite (no_marker_primitive db Hclean p0 Hp0).
Qed.

Lemma marked_nets_not_bare (n : string) :
  In n (layout_nets (marked pts db)) -> net_primitives (marked pts db) n <> [].
Proof.
  rewrite marked_nets. intros Hin. apply in_app_or in Hin.
  destruct Hin as [Hin | [<- | []]].
  - rewrite (marked_net_primitives n Hin). now apply (nets_not_bare db Hclean).
  - rewrite marked_marker_net. discriminate.
Qed.

End Marked.

(** X1.  After [apply] on a database the engine cuts cleanly, the export
    reads the cutout back: the boundary the engine returned is the
    [custom_extent], every net the engine kept is in [signal_list], the
    net of the marker polygon is not, and [reference_list] is empty. *)
Theorem apply_then_export_reads_back
    (get_attributes : CfgCutout -> dict)
    (pedb_cutout : dict -> Edb -> result (list Point * Edb))
    (self ops : CfgOperations) (cut : CfgCutout)
    (db db1 : Edb) (pts : list Point) :
  op_cutout self = Some cut ->
  pedb_cutout (get_attributes cut) db = Ok (pts, db1) ->
  clean_cut db1 ->
  exists w1,
    CfgOperations_apply get_attributes pedb_cutout self (mkWorld db []) = Ok (tt, w1) /\
    edb w1 = marked pts db1 /\
    exported ops (edb w1)
      = Ok (PyDict [("cutout",
                     PyDict [("signal_list", str_list (layout_nets db1));
                             ("reference_list", PyList []);
                             ("custom_extent", py_points pts)])]).
Proof.
  intros Hcut Hrun Hclean.
  eexists. split.
  { rewrite (apply_after_cutout get_attributes pedb_cutout self cut
               (mkWorld db []) pts db1 Hcut Hrun).
    rewrite (no_marker_layer db1 Hclean). reflexivity. }
  cbn [edb]. fold (marked pts db1).
  split; [reflexivity |].
  unfold exported, CfgOperations_get_data_from_db, CfgCutout_get_data_from_db.
  rewrite in_all_layers_sentinel, (marked_layers pts db1).
  change (find_primitive (marked pts db1) "pyedb_cutout")
    with (find_primitive (marked pts db1) sentinel).
  rewrite (marked_polygon pts db1 Hclean).
  rewrite (collect_net_names_nonempty (nets (marked pts db1)) []
             (nets_nonempty _ (marked_nets_not_bare pts db1 Hclean))).
  cbn [app]. rewrite filter_nets, (marked_signal_nets pts db1 Hclean).
  reflexivity.
Qed.

(** The cut [engine_cutout] makes of [board_plain] for the document. *)
Definition board_after_engine : Edb :=
  mkEdb two_layers [trace_p; trace_n; plane_gnd] ["SFPA_RX_P"; "SFPA_RX_N"; "GND"].

Lemma board_after_engine_clean : clean_cut board_after_engine.
Proof.
  constructor; try reflexivity.
  - intros p Hp. cbn in Hp. destruct Hp as [<- | [<- | [<- | []]]]; reflexivity.
  - intros p Hp. cbn in Hp. destruct Hp as [<- | [<- | [<- | []]]]; cbn; tauto.
  - intros n Hn. cbn in Hn. destruct Hn as [<- | [<- | [<- | []]]]; discriminate.
Qed.

Lemma apply_then_export_reads_back_witness :
  exists w1,
    CfgOperations_apply set_attributes engine_cutout cutout_loaded
                        (mkWorld board_plain []) = Ok (tt, w1) /\
    edb w1 = marked (prim_points trace_p ++ prim_points trace_n ++ square)
                    board_after_engine /\
    exported (mkCfgOperations None) (edb w1)
      = Ok (PyDict [("cutout",
                     PyDict [("signal_list",
                              str_list ["SFPA_RX_P"; "SFPA_RX_N"; "GND"]);
                             ("reference_list", PyList []);
                             ("custom_extent",
                              py_points (prim_points trace_p
                                           ++ prim_points trace_n ++ square))])]).
Proof.
  apply (apply_then_export_reads_back set_attributes engine_cutout
           cutout_loaded (mkCfgOperations None) (CfgCutout_init cutout_kwargs)
           board_plain board_after_engine).
  - reflexivity.
  - vm_compute. reflexivity.
  - exact board_after_engine_clean.
Defined.

End CutoutRoundTrip.

(** ** Every outcome of the export, and what follows it *)
Module CutoutOutcomes.
Import CfgOps Boards CutoutExport CutoutApply.

(** A net that owns no primitive. *)
Definition bare (primitives : list Primitive) : bool :=
  match primitives with
  | [] => true
  | _ :: _ => false
  end.

Definition has_bare_net (db : Edb) : bool :=
  existsb (fun n => bare (net_primitives db n)) (layout_nets db).

(** The handler once [get_data_from_db] has read a polygon back. *)
Definition read_back (self : CfgCutout) (db : Edb) (poly : Primitive) : CfgCutout :=
  set_signal_list
    (set_reference_list
       (set_custom_extent self (py_points (prim_points poly)))
       (PyList []))
    (str_list (filter (fun n => first_off_marker (net_primitives db n))
                      (layout_nets db))).

(** The loop, in closed form: it stops on the first net without
    primitives, and otherwise keeps the nets that start off the marker
    layer. *)
Lemma collect_net_names_closed (items : list (string * list Primitive)) :
  forall acc,
    collect_net_names items acc
      = if existsb (fun it => bare (snd it)) items
        then Raise IndexError
        else Ok (acc ++ map fst (filter (fun it => first_off_marker (snd it)) items)).
Proof.
  induction items as [| [name ps] rest IH]; intros acc.
  - cbn. now rewrite app_nil_r.
  - destruct ps as [| p0 ps']; [reflexivity |].
    cbn [collect_net_names existsb snd bare orb filter first_off_marker].
    unfold sentinel.
    destruct (String.eqb (prim_layer p0) "pyedb_cutout"); cbn [negb].
    + apply IH.
    + cbn [length Nat.ltb Nat.leb]. rewrite IH.
      destruct (existsb (fun it => bare (snd it)) rest); [reflexivity |].
      cbn [map fst]. now rewrite <- app_assoc.
Qed.

Lemma existsb_nets (db : Edb) (f : list Primitive -> bool) :
  existsb (fun it => f (snd it)) (nets db)
    = existsb (fun n => f (net_primitives db n)) (layout_nets db).
Proof.
  unfold nets.
  induction (layout_nets db) as [| n ns IH]; [reflexivity |].
  cbn [map existsb snd]. now rewrite IH.
Qed.

Lemma has_bare_net_spec (db : Edb) :
  has_bare_net db = true <->
  exists n, In n (layout_nets db) /\ net_primitives db n = [].
Proof.
  unfold has_bare_net. rewrite existsb_exists.
  split; intros [n [Hin Hbare]]; exists n; split; try exact Hin.
  - destruct (net_primitives db n); [reflexivity | discriminate].
  - now rewrite Hbare.
Qed.

Lemma get_data_closed (self : CfgCutout) (db : Edb) :
  CfgCutout_get_data_from_db self db
    = if in_all_layers sentinel db then
        match find_primitive db sentinel with
        | [] => Ok (PyDict (export_properties self), self)
        | poly :: _ =>
            if has_bare_net db then Raise IndexError
            else Ok (PyDict (export_properties (read_back self db poly)),
                     read_back self db poly)
        end
      else Ok (PyNone, self).
Proof.
  unfold CfgCutout_get_data_from_db.
  rewrite in_all_layers_sentinel.
  change (find_primitive db "pyedb_cutout") with (find_primitive db sentinel).
  destruct (in_all_layers sentinel db); [| reflexivity].
  destruct (find_primitive db sentinel) as [| poly others]; [reflexivity |].
  rewrite collect_net_names_closed, existsb_nets.
  fold (has_bare_net db).
  destruct (has_bare_net db); [reflexivity |].
  cbn [app]. rewrite filter_nets. reflexivity.
Qed.

(** The object and the mapping [CfgOperations.get_data_from_db] ends
    with: the object always holds a handler, and the mapping is the
    export of that handler unless the marker layer is absent. *)
Lemma ops_after_export (ops ops' : CfgOperations) (db : Edb) (data : value) :
  CfgOperations_get_data_from_db ops db = Ok (data, ops') ->
  exists h,
    ops' = mkCfgOperations (Some h) /\
    ((in_all_layers sentinel db = false /\ data = PyDict [] /\ h = CfgCutout_init [])
     \/ (in_all_layers sentinel db = true /\
         data = PyDict [("cutout", PyDict (export_properties h))])).
Proof.
  unfold CfgOperations_get_data_from_db. rewrite get_data_closed.
  destruct (in_all_layers sentinel db).
  - destruct (find_primitive db sentinel) as [| poly others].
    + cbn. intros H. injection H as <- <-.
      eexists. split; [reflexivity |]. right. now split.
    + destruct (has_bare_net db); [discriminate |].
      cbn. intros H. injection H as <- <-.
      eexists. split; [reflexivity |]. right. now split.
  - cbn. intros H. injection H as <- <-.
    eexists. split; [reflexivity |]. left. now repeat split.
Qed.

(** X4.  [CfgCutout.get_data_from_db] raises exactly when the marker
    layer is in the stackup, carries a primitive, and some net of the
    layout owns no primitive; the exception is then [IndexError]. *)
Theorem cutout_export_raises_iff_bare_net (self : CfgCutout) (db : Edb) (e : exn) :
  CfgCutout_get_data_from_db self db = Raise e <->
  e = IndexError /\
  in_all_layers sentinel db = true /\
  find_primitive db sentinel <> [] /\
  exists n, In n (layout_nets db) /\ net_primitives db n = [].
Proof.
  rewrite get_data_closed, <- has_bare_net_spec.
  destruct (in_all_layers sentinel db).
  - destruct (find_primitive db sentinel) as [| poly others].
    + split; [discriminate | intros [_ [_ [Hne _]]]; congruence].
    + destruct (has_bare_net db).
      * split.
        -- intros H. injection H as <-. repeat split. discriminate.
        -- intros [-> _]. reflexivity.
      * split; [discriminate | intros [_ [_ [_ Hbare]]]; discriminate].
  - split; [discriminate | intros [_ [Hlayer _]]; discriminate].
Qed.

(** X5.  [CfgOperations.get_data_from_db] returns the empty mapping
    exactly when the marker layer is absent from the stackup: with the
    layer present it returns a [cutout] entry or raises. *)
Theorem export_empty_iff_marker_absent (ops : CfgOperations) (db : Edb) :
  (exported ops db = Ok (PyDict []) <-> in_all_layers sentinel db = false) /\
  (in_all_layers sentinel db = true ->
   exported ops db = Raise IndexError \/
   exists sl rl ce,
     exported ops db
       = Ok (PyDict [("cutout", PyDict [("signal_list", sl);
                                        ("reference_list", rl);
                                        ("custom_extent", ce)])])).
Proof.
  unfold exported, CfgOperations_get_data_from_db. rewrite get_data_closed.
  destruct (in_all_layers sentinel db).
  - destruct (find_primitive db sentinel) as [| poly others].
    + cbn. split; [split; discriminate |]. intros _. right. now do 3 eexists.
    + destruct (has_bare_net db); cbn.
      * split; [split; discriminate |]. intros _. now left.
      * split; [split; discriminate |]. intros _. right. now do 3 eexists.
  - cbn. split; [split; reflexivity | discriminate].
Qed.

Lemma str_list_inj (a b : list string) : str_list a = str_list b -> a = b.
Proof.
  unfold str_list. intros H. injection H as H.
  revert b H. induction a as [| x xs IH]; intros [| y ys] H;
    try discriminate; [reflexivity |].
  cbn in H. injection H as -> H. f_equal. now apply IH.
Qed.

Lemma first_off_marker_not_confined (primitives : list Primitive) :
  first_off_marker primitives = true -> not_confined primitives = true.
Proof.
  destruct primitives as [| p0 ps]; [discriminate |].
  cbn [first_off_marker not_confined existsb]. intros ->. reflexivity.
Qed.

(** X10.  Every name the export lists in [signal_list] is a net of the
    layout with a primitive on a layer other than the marker layer: the
    export may miss a net that is not confined to the marker layer, it
    never lists one that is. *)
Theorem exported_signal_nets_are_not_confined
    (ops : CfgOperations) (db : Edb) (d : dict) (names : list string) (n : string) :
  exported ops db = Ok (PyDict [("cutout", PyDict d)]) ->
  lookup "signal_list" d = Some (str_list names) ->
  In n names ->
  In n (layout_nets db) /\ not_confined (net_primitives db n) = true.
Proof.
  unfold exported, CfgOperations_get_data_from_db. rewrite get_data_closed.
  destruct (in_all_layers sentinel db); [| discriminate].
  destruct (find_primitive db sentinel) as [| poly others].
  - cbn. intros H. injection H as <-. discriminate.
  - destruct (has_bare_net db); [discriminate |].
    cbn. intros H. injection H as <-.
    cbn. intros Hsig. injection Hsig as Hsig.
    apply (f_equal PyList) in Hsig. fold (str_list names) in Hsig.
    change (PyList (map PyStr ?l)) with (str_list l) in Hsig.
    apply str_list_inj in Hsig. subst names.
    intros Hin. apply filter_In in Hin. destruct Hin as [Hnet Hoff].
    split; [exact Hnet | now apply first_off_marker_not_confined].
Qed.

Lemma exported_signal_nets_are_not_confined_witness :
  In "SFPA_RX_P" (layout_nets board_mixed) /\
  not_confined (net_primitives board_mixed "SFPA_RX_P") = true.
Proof.
  apply (exported_signal_nets_are_not_confined (mkCfgOperations None) board_mixed
           [("signal_list", str_list ["SFPA_RX_P"]);
            ("reference_list", PyList []);
            ("custom_extent", py_points square)]
           ["SFPA_RX_P"] "SFPA_RX_P").
  - vm_compute. reflexivity.
  - reflexivity.
  - now left.
Defined.

(** The handler a mapping of the three exported fields loads as:
    every other parameter is [None], the units are the default. *)
Definition reloaded (sl rl ce : value) : CfgCutout :=
  mkCfgCutout sl rl
    PyNone PyNone PyNone PyNone PyNone PyNone PyNone PyNone PyNone PyNone
    ce (PyStr "meter")
    PyNone PyNone PyNone PyNone PyNone PyNone PyNone PyNone PyNone.

Lemma init_of_export (h : CfgCutout) :
  CfgCutout_init (export_properties h)
    = reloaded (signal_list h) (reference_list h) (custom_extent h).
Proof. reflexivity. Qed.

(** X6.  Whatever [CfgOperations.get_data_from_db] returns loads again
    without error.  The empty mapping loads as an object without
    handler.  A [cutout] entry loads as a handler that exports that
    same entry; of the parameters of a cutout it holds the three
    exported fields only, every other one being [None] and the units
    of the extent the default [meter]. *)
Theorem export_reloads (ops ops' : CfgOperations) (db : Edb) (data : value) :
  CfgOperations_get_data_from_db ops db = Ok (data, ops') ->
  exists (d : dict) (loaded : CfgOperations),
    data = PyDict d /\
    CfgOperations_init d = Ok loaded /\
    match op_cutout loaded with
    | None => in_all_layers sentinel db = false /\ d = []
    | Some h =>
        in_all_layers sentinel db = true /\
        d = [("cutout", PyDict (export_properties h))] /\
        h = reloaded (signal_list h) (reference_list h) (custom_extent h)
    end.
Proof.
  intros Hrun.
  destruct (ops_after_export ops ops' db data Hrun)
    as [h [_ [[Habsent [-> _]] | [Hpresent ->]]]].
  - exists [], (mkCfgOperations None).
    split; [reflexivity | split; [reflexivity |]].
    cbn [op_cutout]. now split.
  - exists [("cutout", PyDict (export_properties h))],
           (mkCfgOperations (Some (CfgCutout_init (export_properties h)))).
    split; [reflexivity | split; [reflexivity |]].
    cbn [op_cutout]. rewrite init_of_export.
    split; [exact Hpresent | split; reflexivity].
Qed.

Lemma export_reloads_witness :
  exists (d : dict) (loaded : CfgOperations),
    PyDict [("cutout",
             PyDict [("signal_list", str_list ["SFPA_RX_P"; "SFPA_RX_N"; "GND"]);
                     ("reference_list", PyList []);
                     ("custom_extent", py_points square)])]
      = PyDict d /\
    CfgOperations_init d = Ok loaded /\
    match op_cutout loaded with
    | None => in_all_layers sentinel board_cut = false /\ d = []
    | Some h =>
        in_all_layers sentinel board_cut = true /\
        d = [("cutout", PyDict (export_properties h))] /\
        h = reloaded (signal_list h) (reference_list h) (custom_extent h)
    end.
Proof.
  apply (export_reloads (mkCfgOperations None)
           (mkCfgOperations
              (Some (read_back (CfgCutout_init []) board_cut marker)))
           board_cut).
  vm_compute. reflexivity.
Defined.

(** How a call of a method ends: with a value or with an exception,
    and in both cases with the object as the assignments made until
    then left it. *)
Inductive outcome (A S : Type) : Type :=
| Returned (a : A) (s : S)
| Raised (e : exn) (s : S).
Arguments Returned {A S} a s.
Arguments Raised {A S} e s.

Definition object_after {A S : Type} (o : outcome A S) : S :=
  match o with
  | Returned _ s => s
  | Raised _ s => s
  end.

Definition to_result {A S : Type} (o : outcome A S) : result (A * S) :=
  match o with
  | Returned a s => Ok (a, s)
  | Raised e _ => Raise e
  end.

(** [CfgCutout.get_data_from_db] with the handler kept when the loop
    raises: [custom_extent] is assigned before the nets are visited,
    [reference_list] and [signal_list] after. *)
Definition CfgCutout_get_data_from_db_outcome (self : CfgCutout) (db : Edb)
    : outcome value CfgCutout :=
  if in_all_layers "pyedb_cutout" db then
    let polygons := find_primitive db "pyedb_cutout" in
    match polygons with
    | poly :: _ =>
        let self1 := set_custom_extent self (py_points (prim_points poly)) in
        match collect_net_names (nets db) [] with
        | Raise e => Raised e self1
        | Ok net_names =>
            let self2 := set_reference_list self1 (PyList []) in
            let self3 := set_signal_list self2 (str_list net_names) in
            Returned (PyDict (export_properties self3)) self3
        end
    | [] => Returned (PyDict (export_properties self)) self
    end
  else Returned PyNone self.

(** [CfgOperations.get_data_from_db] with the object kept when the
    handler raises: [self.op_cutout] is assigned before the handler is
    called. *)
Definition CfgOperations_get_data_from_db_outcome (self : CfgOperations) (db : Edb)
    : outcome value CfgOperations :=
  let fresh := CfgCutout_init [] in
  match CfgCutout_get_data_from_db_outcome fresh db with
  | Raised e handler => Raised e (mkCfgOperations (Some handler))
  | Returned data_from_db handler =>
      if truthy data_from_db then
        Returned (PyDict [("cutout", data_from_db)]) (mkCfgOperations (Some handler))
      else
        Returned (PyDict []) (mkCfgOperations (Some handler))
  end.

(** The outcomes return and raise what the methods return and raise. *)
Lemma cutout_outcome_agrees (self : CfgCutout) (db : Edb) :
  to_result (CfgCutout_get_data_from_db_outcome self db)
    = CfgCutout_get_data_from_db self db.
Proof.
  unfold CfgCutout_get_data_from_db_outcome, CfgCutout_get_data_from_db.
  destruct (in_all_layers "pyedb_cutout" db); [| reflexivity].
  destruct (find_primitive db "pyedb_cutout") as [| poly others]; [reflexivity |].
  destruct (collect_net_names (nets db) []); reflexivity.
Qed.

Lemma operations_outcome_agrees (ops : CfgOperations) (db : Edb) :
  to_result (CfgOperations_get_data_from_db_outcome ops db)
    = CfgOperations_get_data_from_db ops db.
Proof.
  unfold CfgOperations_get_data_from_db_outcome, CfgOperations_get_data_from_db.
  rewrite <- cutout_outcome_agrees.
  destruct (CfgCutout_get_data_from_db_outcome (CfgCutout_init []) db)
    as [data h | e h]; cbn [to_result]; [| reflexivity].
  destruct (truthy data); reflexivity.
Qed.

Lemma object_after_export (ops : CfgOperations) (db : Edb) :
  exists h,
    object_after (CfgOperations_get_data_from_db_outcome ops db)
      = mkCfgOperations (Some h).
Proof.
  unfold CfgOperations_get_data_from_db_outcome.
  destruct (CfgCutout_get_data_from_db_outcome (CfgCutout_init []) db)
    as [data h | e h]; [destruct (truthy data) |]; now exists h.
Qed.

Section AfterExport.

Variable get_attributes : CfgCutout -> dict.
Variable pedb_cutout : dict -> Edb -> result (list Point * Edb).

Let apply := CfgOperations_apply get_attributes pedb_cutout.

(** X7.  [CfgOperations.get_data_from_db] leaves a handler in
    [op_cutout] however it ends, returning or raising, also on an
    object that was loaded without a [cutout] section.  An [apply] on
    the object afterwards is not skipped: its first call on the
    database is the engine's cutout, with the attributes of that
    handler, and what the engine raises is raised. *)
Theorem export_then_apply_runs_cutout (ops : CfgOperations) (db : Edb) (w : World) :
  exists h,
    op_cutout (object_after (CfgOperations_get_data_from_db_outcome ops db)) = Some h /\
    (forall e,
        pedb_cutout (get_attributes h) (edb w) = Raise e ->
        apply (object_after (CfgOperations_get_data_from_db_outcome ops db)) w
          = Raise e) /\
    (forall pts db1,
        pedb_cutout (get_attributes h) (edb w) = Ok (pts, db1) ->
        exists w1 more,
          apply (object_after (CfgOperations_get_data_from_db_outcome ops db)) w
            = Ok (tt, w1) /\
          calls w1 = calls w ++ CallCutout (get_attributes h) :: more).
Proof.
  destruct (object_after_export ops db) as [h Hobj].
  rewrite Hobj. exists h. split; [reflexivity |]. split.
  - intros e He.
    now apply (apply_cutout_raises get_attributes pedb_cutout
                 (mkCfgOperations (Some h)) h).
  - intros pts db1 Hcut.
    unfold apply.
    rewrite (apply_after_cutout get_attributes pedb_cutout
               (mkCfgOperations (Some h)) h w pts db1 eq_refl Hcut).
    destruct (in_all_layers sentinel db1); eexists; eexists;
      (split; [reflexivity |]); cbn [calls].
    + reflexivity.
    + now rewrite <- !app_assoc.
Qed.

(** X8.  After an [apply] that ran the cutout, whatever the engine
    did, the marker layer is in the stackup, so the export is never the
    empty mapping: it is a [cutout] entry of three fields, or the
    [IndexError] of a net without primitives. *)
Theorem export_after_apply_is_not_empty
    (self ops : CfgOperations) (cut : CfgCutout) (w w1 : World) :
  op_cutout self = Some cut ->
  apply self w = Ok (tt, w1) ->
  exported ops (edb w1) <> Ok (PyDict []) /\
  (exported ops (edb w1) = Raise IndexError \/
   exists sl rl ce,
     exported ops (edb w1)
       = Ok (PyDict [("cutout", PyDict [("signal_list", sl);
                                        ("reference_list", rl);
                                        ("custom_extent", ce)])])).
Proof.
  intros Hcut Happly.
  pose proof (marker_present_after_apply get_attributes pedb_cutout
                self cut w w1 Hcut Happly) as Hmarker.
  unfold exported, CfgOperations_get_data_from_db.
  rewrite get_data_closed, Hmarker.
  destruct (find_primitive (edb w1) sentinel) as [| poly others].
  - cbn. split; [discriminate |]. right. now do 3 eexists.
  - destruct (has_bare_net (edb w1)); cbn.
    + split; [discriminate | now left].
    + split; [discriminate |]. right. now do 3 eexists.
Qed.

(** X9.  On a database whose stackup already has the marker layer, and
    with an engine that does not edit the stackup, [apply] records
    nothing of the cutout it runs: the engine call is its only call,
    the boundary the engine returned is dropped, and the database is
    left as the engine left it. *)
Theorem apply_on_marked_stackup_drops_boundary
    (self : CfgOperations) (cut : CfgCutout) (w : World)
    (pts : list Point) (db1 : Edb) :
  keeps_stackup pedb_cutout ->
  op_cutout self = Some cut ->
  in_all_layers sentinel (edb w) = true ->
  pedb_cutout (get_attributes cut) (edb w) = Ok (pts, db1) ->
  apply self w = Ok (tt, mkWorld db1 (calls w ++ [CallCutout (get_attributes cut)])).
Proof.
  intros Hkeeps Hcut Hmarker Hrun.
  unfold apply.
  rewrite (apply_after_cutout get_attributes pedb_cutout self cut w pts db1 Hcut Hrun).
  rewrite (in_all_layers_stackup sentinel (edb w) db1 (Hkeeps _ _ _ _ Hrun)), Hmarker.
  reflexivity.
Qed.

End AfterExport.

(** On [board_bare_net] the export raises, and the object is left
    with a handler that holds the extent read so far: [apply], skipped
    before the call, runs the engine after it. *)
Lemma export_then_apply_runs_cutout_witness :
  CfgOperations_apply set_attributes engine_cutout (mkCfgOperations None)
                      (mkWorld board_bare_net [])
    = Ok (tt, mkWorld board_bare_net []) /\
  CfgOperations_get_data_from_db_outcome (mkCfgOperations None) board_bare_net
    = Raised IndexError
        (mkCfgOperations
           (Some (set_custom_extent (CfgCutout_init []) (py_points square)))) /\
  exists h,
    op_cutout (object_after
                 (CfgOperations_get_data_from_db_outcome
                    (mkCfgOperations None) board_bare_net)) = Some h /\
    (forall e,
        engine_cutout (set_attributes h) (edb (mkWorld board_bare_net [])) = Raise e ->
        CfgOperations_apply set_attributes engine_cutout
          (object_after
             (CfgOperations_get_data_from_db_outcome
                (mkCfgOperations None) board_bare_net))
          (mkWorld board_bare_net [])
          = Raise e) /\
    (forall pts db1,
        engine_cutout (set_attributes h) (edb (mkWorld board_bare_net []))
          = Ok (pts, db1) ->
        exists w1 more,
          CfgOperations_apply set_attributes engine_cutout
            (object_after
               (CfgOperations_get_data_from_db_outcome
                  (mkCfgOperations None) board_bare_net))
            (mkWorld board_bare_net [])
            = Ok (tt, w1) /\
          calls w1 = calls (mkWorld board_bare_net [])
                       ++ CallCutout (set_attributes h) :: more).
Proof.
  split; [reflexivity |].
  split; [vm_compute; reflexivity |].
  exact (export_then_apply_runs_cutout set_attributes engine_cutout
           (mkCfgOperations None) board_bare_net (mkWorld board_bare_net [])).
Defined.

Lemma export_after_apply_is_not_empty_witness :
  exported (mkCfgOperations None) (edb applied_once) <> Ok (PyDict []) /\
  (exported (mkCfgOperations None) (edb applied_once) = Raise IndexError \/
   exists sl rl ce,
     exported (mkCfgOperations None) (edb applied_once)
       = Ok (PyDict [("cutout", PyDict [("signal_list", sl);
                                        ("reference_list", rl);
                                        ("custom_extent", ce)])])).
Proof.
  apply (export_after_apply_is_not_empty set_attributes engine_cutout
           cutout_loaded (mkCfgOperations None) (CfgCutout_init cutout_kwargs)
           (mkWorld board_plain []) applied_once).
  - reflexivity.
  - vm_compute. reflexivity.
Defined.

(** A second document, which keeps [GND] only, applied to the board
    the first document marked. *)
Definition gnd_only : CfgCutout :=
  CfgCutout_init [("signal_list", str_list ["GND"])].

Lemma apply_on_marked_stackup_drops_boundary_witness :
  in_all_layers sentinel (edb applied_once) = true /\
  engine_cutout (set_attributes gnd_only) (edb applied_once)
    = Ok (square,
          mkEdb (two_layers ++ [mkLayer "pyedb_cutout" "document"])
                [plane_gnd] ["GND"]) /\
  CfgOperations_apply set_attributes engine_cutout
    (mkCfgOperations (Some gnd_only)) applied_once
    = Ok (tt,
          mkWorld (mkEdb (two_layers ++ [mkLayer "pyedb_cutout" "document"])
                         [plane_gnd] ["GND"])
                  (calls applied_once ++ [CallCutout (set_attributes gnd_only)])).
Proof.
  assert (Hrun : engine_cutout (set_attributes gnd_only) (edb applied_once)
                 = Ok (square,
                       mkEdb (two_layers ++ [mkLayer "pyedb_cutout" "document"])
                             [plane_gnd] ["GND"]))
    by (vm_compute; reflexivity).
  split; [reflexivity | split; [exact Hrun |]].
  apply (apply_on_marked_stackup_drops_boundary set_attributes engine_cutout
           (mkCfgOperations (Some gnd_only)) gnd_only applied_once square _
           engine_cutout_keeps_stackup eq_refl eq_refl Hrun).
Defined.

End CutoutOutcomes.

(** ** Stackup handler: renaming a layer *)
Module Stackup.

Record StackLayer : Type := mkStackLayer {
  name : string;
  kind : string;
  material : string;
  thickness : string
}.

Record PadstackInstance : Type := mkInstance {
  inst_name : string;
  start_layer : string;
  stop_layer : string
}.

(** The part of the database the stackup handler works on. *)
Record Board : Type := mkBoard {
  layers : list StackLayer;
  instances : list PadstackInstance
}.

Definition has_layer (ref : string) (ls : list StackLayer) : bool :=
  existsb (fun l => String.eqb (name l) ref) ls.

(** Every padstack instance starts and stops on a layer of the stackup. *)
Definition well_referenced (b : Board) : bool :=
  forallb (fun i => has_layer (start_layer i) (layers b)
                    && has_layer (stop_layer i) (layers b))
          (instances b).

Definition rename_ref (old new ref : string) : string :=
  if String.eqb ref old then new else ref.

Definition cascade (old new : string) (i : PadstackInstance) : PadstackInstance :=
  mkInstance (inst_name i)
             (rename_ref old new (start_layer i))
             (rename_ref old new (stop_layer i)).

Fixpoint set_name_at (pos : nat) (new : string) (ls : list StackLayer)
    : list StackLayer :=
  match ls, pos with
  | [], _ => []
  | l :: rest, O => mkStackLayer new (kind l) (material l) (thickness l) :: rest
  | l :: rest, S pos' => l :: set_name_at pos' new rest
  end.

(** Modelled from the spec: the rename of the stackup handler
    (cfg_stackup.py, which is not among the sources).  "rename (matched
    by position when [name] changes)"; "renaming a layer must cascade to
    every padstack instance whose start/stop layer references the old
    name -- this must happen atomically with the rename": the layer at
    [pos] takes the new name and the instances are rewritten in the
    same step.  A position outside the stackup renames nothing. *)
Definition rename_layer (pos : nat) (new : string) (b : Board) : Board :=
  match nth_error (layers b) pos with
  | Some l => mkBoard (set_name_at pos new (layers b))
                      (map (cascade (name l) new) (instances b))
  | None => b
  end.

(** Part of the stackup of [test_13_stackup_layers], with two vias. *)
Definition si_verse : Board :=
  mkBoard
    [mkStackLayer "1_Top" "signal" "copper" "0.035mm";
     mkStackLayer "DE1" "dielectric" "Megtron4" "0.1mm";
     mkStackLayer "Inner1(GND1)" "signal" "copper" "0.017mm";
     mkStackLayer "DE2" "dielectric" "Megtron4" "0.088mm";
     mkStackLayer "16_Bottom" "signal" "copper" "0.035mm"]
    [mkInstance "via_1" "1_Top" "Inner1(GND1)";
     mkInstance "via_2" "Inner1(GND1)" "16_Bottom";
     mkInstance "via_3" "1_Top" "16_Bottom"].

Lemma has_layer_cons (ref : string) (l : StackLayer) (ls : list StackLayer) :
  has_layer ref (l :: ls) = String.eqb (name l) ref || has_layer ref ls.
Proof. reflexivity. Qed.

Lemma has_layer_set_name_new (ls : list StackLayer) :
  forall pos new l,
    nth_error ls pos = Some l ->
    has_layer new (set_name_at pos new ls) = true.
Proof.
  induction ls as [| l0 rest IH]; intros pos new l Hnth.
  - destruct pos; discriminate.
  - destruct pos as [| pos']; cbn [set_name_at]; rewrite has_layer_cons.
    + cbn [name]. now rewrite String.eqb_refl.
    + cbn [nth_error] in Hnth. rewrite (IH pos' new l Hnth). apply orb_true_r.
Qed.

Lemma has_layer_set_name_other (ls : list StackLayer) :
  forall pos new l ref,
    nth_error ls pos = Some l ->
    String.eqb ref (name l) = false ->
    has_layer ref ls = true ->
    has_layer ref (set_name_at pos new ls) = true.
Proof.
  induction ls as [| l0 rest IH]; intros pos new l ref Hnth Hne Hhas.
  - destruct pos; discriminate.
  - rewrite has_layer_cons in Hhas.
    destruct pos as [| pos']; cbn [set_name_at nth_error] in *;
      rewrite has_layer_cons.
    + injection Hnth as ->.
      rewrite String.eqb_sym, Hne in Hhas. cbn [orb] in Hhas.
      rewrite Hhas. apply orb_true_r.
    + apply orb_true_iff in Hhas. apply orb_true_iff.
      destruct Hhas as [Hhead | Htail]; [now left | right].
      now apply (IH pos' new l).
Qed.

Lemma has_layer_rename_ref (ls : list StackLayer) (pos : nat) (new : string)
    (l : StackLayer) (ref : string) :
  nth_error ls pos = Some l ->
  has_layer ref ls = true ->
  has_layer (rename_ref (name l) new ref) (set_name_at pos new ls) = true.
Proof.
  intros Hnth Hhas. unfold rename_ref.
  destruct (String.eqb ref (name l)) eqn:Heq.
  - now apply (has_layer_set_name_new ls pos new l).
  - now apply (has_layer_set_name_other ls pos new l).
Qed.

(** C4.  A rename of the layer at a position of the stackup rewrites,
    in the same step, every padstack instance: an instance that started
    or stopped on the old name starts or stops on the new one, and when
    every instance referred to a layer of the stackup before the
    rename, every instance refers to a layer of the new stackup after
    it. *)
Theorem rename_layer_cascades (b : Board) (pos : nat) (l : StackLayer) (new : string) :
  nth_error (layers b) pos = Some l ->
  well_referenced b = true ->
  (forall k i,
      nth_error (instances b) k = Some i ->
      exists i',
        nth_error (instances (rename_layer pos new b)) k = Some i' /\
        inst_name i' = inst_name i /\
        (start_layer i = name l -> start_layer i' = new) /\
        (stop_layer i = name l -> stop_layer i' = new)) /\
  has_layer new (layers (rename_layer pos new b)) = true /\
  well_referenced (rename_layer pos new b) = true.
Proof.
  intros Hnth Hwell.
  unfold rename_layer. rewrite Hnth. cbn [instances layers].
  split; [| split].
  - intros k i Hk.
    exists (cascade (name l) new i).
    split; [now apply map_nth_error |].
    split; [reflexivity |].
    unfold cascade, rename_ref; cbn [start_layer stop_layer].
    split; intros ->; now rewrite String.eqb_refl.
  - now apply (has_layer_set_name_new (layers b) pos new l).
  - unfold well_referenced in *. cbn [instances layers].
    rewrite forallb_forall in Hwell. apply forallb_forall.
    intros i' Hin. apply in_map_iff in Hin. destruct Hin as [i [<- Hin]].
    specialize (Hwell i Hin). apply andb_true_iff in Hwell.
    destruct Hwell as [Hstart Hstop].
    cbn [cascade start_layer stop_layer]. apply andb_true_iff.
    split; now apply has_layer_rename_ref.
Qed.

Lemma rename_layer_cascades_witness :
  nth_error (layers si_verse) 2
    = Some (mkStackLayer "Inner1(GND1)" "signal" "copper" "0.017mm") /\
  well_referenced si_verse = true /\
  instances (rename_layer 2 "Inner1" si_verse)
    = [mkInstance "via_1" "1_Top" "Inner1";
       mkInstance "via_2" "Inner1" "16_Bottom";
       mkInstance "via_3" "1_Top" "16_Bottom"] /\
  well_referenced (rename_layer 2 "Inner1" si_verse) = true.
Proof.
  split; [reflexivity | split; [reflexivity | split; [reflexivity |]]].
  apply (rename_layer_cascades si_verse 2
           (mkStackLayer "Inner1(GND1)" "signal" "copper" "0.017mm") "Inner1");
    reflexivity.
Defined.

End Stackup.

(** ** Sources and ports handler: terminals on nets *)
Module Sources.

(** The five ways an entry addresses a terminal. *)
Inductive Terminal : Type :=
| Pin (pin : string)
| Net (net : string)
| PinGroup (group : string)
| NearestPin (reference_net : string) (search_radius : Q)
| Coordinates (layer : string) (x y : string) (net : string).

(** An entry of the [sources] or [ports] section. *)
Record Entry : Type := mkEntry {
  name : string;
  reference_designator : string;
  type : string;
  magnitude : Q;
  distributed : bool;
  positive_terminal : Terminal;
  negative_terminal : Terminal
}.

Record ComponentPin : Type := mkPin {
  pin_component : string;
  pin_name : string;
  pin_net : string
}.

Record PinGroupRec : Type := mkPinGroup {
  pg_name : string;
  pg_component : string;
  pg_pins : list string
}.

(** The part of the database the handler works on: the pins of the
    components, the pin groups, and the excitations of the domain at
    hand, each stored under its name. *)
Record Layout : Type := mkLayout {
  pins : list ComponentPin;
  pin_groups : list PinGroupRec;
  excitations : list Entry
}.

(** The pins of component [rd] on [net]. *)
Definition matching_pins (db : Layout) (rd net : string) : list ComponentPin :=
  filter (fun p => String.eqb (pin_component p) rd && String.eqb (pin_net p) net)
         (pins db).

Definition has_pin_group (group : string) (db : Layout) : bool :=
  existsb (fun g => String.eqb (pg_name g) group) (pin_groups db).

Definition has_pin (rd pin : string) (db : Layout) : bool :=
  existsb (fun p => String.eqb (pin_component p) rd && String.eqb (pin_name p) pin)
          (pins db).

(** "creating a net-based terminal implicitly creates a backing pin
    group if one does not already exist". *)
Definition ensure_pin_group (group rd net : string) (db : Layout) : Layout :=
  if has_pin_group group db then db
  else mkLayout (pins db)
                (pin_groups db
                   ++ [mkPinGroup group rd (map pin_name (matching_pins db rd net))])
                (excitations db).

(** "applying configuration with a duplicate name overwrites/merges
    rather than duplicating". *)
Fixpoint put (e : Entry) (es : list Entry) : list Entry :=
  match es with
  | [] => [e]
  | e0 :: rest => if String.eqb (name e0) (name e) then e :: rest
                  else e0 :: put e rest
  end.

Definition put_excitation (e : Entry) (db : Layout) : Layout :=
  mkLayout (pins db) (pin_groups db) (put e (excitations db)).

(** "pg_<name>_<designator>", and "..._ref" for the negative side. *)
Definition pin_group_name (e : Entry) : string :=
  "pg_" ++ name e ++ "_" ++ reference_designator e.

Definition ref_pin_group_name (e : Entry) : string :=
  pin_group_name e ++ "_ref".

(** A terminal as the database holds it: a net taken as one terminal
    becomes its pin group, a named pin must be on the component. *)
Definition resolve (e : Entry) (group : string) (t : Terminal) (db : Layout)
    : result (Terminal * Layout) :=
  match t with
  | Net net => Ok (PinGroup group,
                   ensure_pin_group group (reference_designator e) net db)
  | Pin pin => if has_pin (reference_designator e) pin db then Ok (t, db)
               else Raise (KeyError pin)
  | PinGroup g => if has_pin_group g db then Ok (t, db) else Raise (KeyError g)
  | NearestPin _ _ => Ok (t, db)
  | Coordinates _ _ _ _ => Ok (t, db)
  end.

Section Handler.

(** The magnitude each terminal of a distributed entry receives, from
    the magnitude of the entry and the number of terminals.  The
    handler that fixes it is not among the sources. *)
Variable share : Q -> nat -> Q.

(** One excitation per pin, "each receiving an independently suffixed
    name". *)
Definition per_pin (e : Entry) (neg : Terminal) (n : nat) (p : ComponentPin) : Entry :=
  mkEntry (name e ++ "_" ++ pin_name p)
          (reference_designator e)
          (type e)
          (share (magnitude e) n)
          false
          (Pin (pin_name p))
          neg.

(** Modelled from the spec: the apply step of the sources and ports
    handler (cfg_ports_sources.py, which is not among the sources).
    "When [distributed=True], the logical entry must expand into one
    physical terminal per matching pin rather than a single aggregate
    pin group"; otherwise a net becomes the pin group named after the
    entry and the entry is stored under its own name. *)
Definition apply_entry (e : Entry) (db : Layout) : result Layout :=
  match distributed e, positive_terminal e with
  | true, Net net =>
      match resolve e (ref_pin_group_name e) (negative_terminal e) db with
      | Raise err => Raise err
      | Ok (neg, db1) =>
          let ps := matching_pins db1 (reference_designator e) net in
          Ok (fold_left (fun d p => put_excitation (per_pin e neg (length ps) p) d)
                        ps db1)
      end
  | _, pos_spec =>
      match resolve e (pin_group_name e) pos_spec db with
      | Raise err => Raise err
      | Ok (pos, db1) =>
          match resolve e (ref_pin_group_name e) (negative_terminal e) db1 with
          | Raise err => Raise err
          | Ok (neg, db2) =>
              Ok (put_excitation
                    (mkEntry (name e) (reference_designator e) (type e)
                             (magnitude e) false pos neg)
                    db2)
          end
      end
  end.

End Handler.

(** Modelled from the spec: the export of the domain, "the inverse per
    selected domain": one entry per excitation of the database. *)
Definition export_properties (db : Layout) : list Entry := excitations db.

(** The entry of a given name in an export, as the tests look it up. *)
Fixpoint find_entry (n : string) (es : list Entry) : option Entry :=
  match es with
  | [] => None
  | e :: rest => if String.eqb (name e) n then Some e else find_entry n rest
  end.


(** A decimal pin name. *)
Definition pin_label (i : nat) : string := NilEmpty.string_of_uint (Nat.to_uint i).

(** A component [rd] with [n] pins on [net] and one pin on [GND]. *)
Definition board_with_pins (rd net : string) (n : nat) : Layout :=
  mkLayout (map (fun i => mkPin rd (pin_label i) net) (seq 1 n)
              ++ [mkPin rd "G1" "GND"])
           [] [].

(** The entries of [test_15b_sources_net_net] and
    [test_15c_sources_net_net_distributed]. *)
Definition vsource_u2 : Entry :=
  mkEntry "VSOURCE_U2_1V0_GND" "U2" "voltage" 1 false (Net "1V0") (Net "GND").

Definition isource_u1 : Entry :=
  mkEntry "ISOURCE" "U1" "current" 117 true (Net "1V0") (Net "GND").

(** The pin group of a given name, as the database holds it. *)
Fixpoint find_group (group : string) (gs : list PinGroupRec) : option PinGroupRec :=
  match gs with
  | [] => None
  | g :: rest => if String.eqb (pg_name g) group then Some g else find_group group rest
  end.

Definition find_pin_group (group : string) (db : Layout) : option PinGroupRec :=
  find_group group (pin_groups db).

(** The group that backs a net taken as one terminal: the group of
    that name when the database has one, and otherwise a group on the
    component with its pins on the net. *)
Definition backing_group (group rd net : string) (db : Layout) : PinGroupRec :=
  match find_pin_group group db with
  | Some g => g
  | None => mkPinGroup group rd (map pin_name (matching_pins db rd net))
  end.

(** What the specification describes for a net/net entry: the two
    pin groups named after it are in the database after the apply, and
    the export holds under its name its type and its magnitude, with
    the two terminals given as those pin groups. *)
Definition net_net_round_trip (share : Q -> nat -> Q) (e : Entry) (db : Layout) : Prop :=
  exists db' x,
    apply_entry share e db = Ok db' /\
    has_pin_group ("pg_" ++ name e ++ "_" ++ reference_designator e) db' = true /\
    has_pin_group ("pg_" ++ name e ++ "_" ++ reference_designator e ++ "_ref") db'
      = true /\
    find_entry (name e) (export_properties db') = Some x /\
    type x = type e /\
    magnitude x = magnitude e /\
    positive_terminal x
      = PinGroup ("pg_" ++ name e ++ "_" ++ reference_designator e) /\
    negative_terminal x
      = PinGroup ("pg_" ++ name e ++ "_" ++ reference_designator e ++ "_ref").

(** The share that divides the magnitude among the terminals. *)
Definition even_share (m : Q) (n : nat) : Q := m / inject_Z (Z.of_nat n).

(** The assertions of [test_15c_sources_net_net_distributed], on a
    component with 117 pins on the positive net. *)
Definition passes_test_15c (share : Q -> nat -> Q) : Prop :=
  exists db',
    apply_entry share isource_u1 (board_with_pins "U1" "1V0" 117) = Ok db' /\
    length (export_properties db') = 117%nat /\
    Forall (fun s1 => magnitude s1 == 1 /\
                      reference_designator s1 = "U1" /\
                      type s1 = "current")
           (export_properties db').


Lemma matching_pins_ensure (group rd net rd' net' : string) (db : Layout) :
  matching_pins (ensure_pin_group group rd net db) rd' net' = matching_pins db rd' net'.
Proof.
  unfold ensure_pin_group. destruct (has_pin_group group db); reflexivity.
Qed.


Lemma has_pin_group_ensure (group rd net : string) (db : Layout) :
  has_pin_group group (ensure_pin_group group rd net db) = true.
Proof.
  unfold ensure_pin_group.
  destruct (has_pin_group group db) eqn:Hhas; [exact Hhas |].
  unfold has_pin_group. cbn [pin_groups].
  rewrite existsb_app. cbn. rewrite String.eqb_refl. apply orb_true_r.
Qed.

Lemma has_pin_group_ensure_other (group group' rd net : string) (db : Layout) :
  has_pin_group group db = true ->
  has_pin_group group (ensure_pin_group group' rd net db) = true.
Proof.
  intros Hhas. unfold ensure_pin_group.
  destruct (has_pin_group group' db); [exact Hhas |].
  unfold has_pin_group in *. cbn [pin_groups].
  rewrite existsb_app, Hhas. reflexivity.
Qed.

Lemma find_entry_put (e : Entry) (es : list Entry) :
  find_entry (name e) (put e es) = Some e.
Proof.
  induction es as [| e0 rest IH]; cbn [put find_entry].
  - now rewrite String.eqb_refl.
  - destruct (String.eqb (name e0) (name e)) eqn:Heq; cbn [find_entry].
    + now rewrite String.eqb_refl.
    + now rewrite Heq.
Qed.


Lemma append_assoc (a b c : string) : ((a ++ b) ++ c = a ++ b ++ c)%string.
Proof.
  induction a as [| x a IH]; cbn; [reflexivity | now rewrite IH].
Qed.


Section Expansion.

Variable f : ComponentPin -> Entry.
Variable prefix : string.
Hypothesis f_name : forall p, name (f p) = (prefix ++ pin_name p)%string.




End Expansion.

Lemma has_pin_group_find (group : string) (db : Layout) :
  has_pin_group group db
    = match find_pin_group group db with Some _ => true | None => false end.
Proof.
  unfold has_pin_group, find_pin_group.
  induction (pin_groups db) as [| g gs IH]; [reflexivity |].
  cbn [existsb find_group]. destruct (String.eqb (pg_name g) group); [reflexivity |].
  exact IH.
Qed.

Lemma find_group_app (group : string) (gs : list PinGroupRec) (g : PinGroupRec) :
  find_group group (gs ++ [g])
    = match find_group group gs with
      | Some g0 => Some g0
      | None => if String.eqb (pg_name g) group then Some g else None
      end.
Proof.
  induction gs as [| g0 rest IH]; [reflexivity |].
  cbn [app find_group]. destruct (String.eqb (pg_name g0) group); [reflexivity |].
  exact IH.
Qed.

Lemma find_pin_group_ensure (group rd net : string) (db : Layout) :
  find_pin_group group (ensure_pin_group group rd net db)
    = Some (backing_group group rd net db).
Proof.
  unfold ensure_pin_group, backing_group. rewrite has_pin_group_find.
  destruct (find_pin_group group db) as [g |] eqn:Hfind; [exact Hfind |].
  unfold find_pin_group in *. cbn [pin_groups].
  rewrite find_group_app, Hfind. cbn [pg_name]. now rewrite String.eqb_refl.
Qed.

Lemma find_pin_group_ensure_other (group group' rd net : string) (db : Layout) :
  String.eqb group' group = false ->
  find_pin_group group (ensure_pin_group group' rd net db) = find_pin_group group db.
Proof.
  intros Hne. unfold ensure_pin_group.
  destruct (has_pin_group group' db); [reflexivity |].
  unfold find_pin_group. cbn [pin_groups].
  rewrite find_group_app. cbn [pg_name]. rewrite Hne.
  now destruct (find_group group (pin_groups db)).
Qed.

Lemma length_append (a b : string) :
  String.length (a ++ b) = (String.length a + String.length b)%nat.
Proof.
  induction a as [| c a IH]; cbn; [reflexivity | now rewrite IH].
Qed.

Lemma ref_name_differs (e : Entry) :
  String.eqb (ref_pin_group_name e) (pin_group_name e) = false.
Proof.
  apply String.eqb_neq. unfold ref_pin_group_name. intros Heq.
  apply (f_equal String.length) in Heq. rewrite length_append in Heq.
  cbn in Heq. lia.
Qed.

Lemma backing_group_ensure_other (group group' rd rd' net net' : string) (db : Layout) :
  String.eqb group' group = false ->
  backing_group group rd net (ensure_pin_group group' rd' net' db)
    = backing_group group rd net db.
Proof.
  intros Hne. unfold backing_group.
  now rewrite (find_pin_group_ensure_other group group' rd' net' db Hne),
              matching_pins_ensure.
Qed.

(** C6, as the handler has it.  A net/net entry that is not
    distributed is backed by two pin groups, [pg_<name>_<rd>] with the
    pins of the component on the positive net and
    [pg_<name>_<rd>_ref] with its pins on the negative net, each
    created unless a group of that name is there already; and the
    export afterwards holds, under the name of the entry, its type and
    its magnitude with the two terminals given as those pin groups. *)
Theorem net_net_entry_round_trip
    (share : Q -> nat -> Q) (e : Entry) (db : Layout) (p n : string) :
  distributed e = false ->
  positive_terminal e = Net p ->
  negative_terminal e = Net n ->
  exists db' x,
    apply_entry share e db = Ok db' /\
    pin_group_name e = ("pg_" ++ name e ++ "_" ++ reference_designator e)%string /\
    ref_pin_group_name e
      = ("pg_" ++ name e ++ "_" ++ reference_designator e ++ "_ref")%string /\
    find_pin_group (pin_group_name e) db'
      = Some (backing_group (pin_group_name e) (reference_designator e) p db) /\
    find_pin_group (ref_pin_group_name e) db'
      = Some (backing_group (ref_pin_group_name e) (reference_designator e) n db) /\
    find_entry (name e) (export_properties db') = Some x /\
    type x = type e /\
    magnitude x = magnitude e /\
    positive_terminal x = PinGroup (pin_group_name e) /\
    negative_terminal x = PinGroup (ref_pin_group_name e).
Proof.
  intros Hdist Hpos Hneg.
  unfold apply_entry. rewrite Hdist, Hpos, Hneg. cbn [resolve].
  eexists. eexists. split; [reflexivity |].
  split; [reflexivity |].
  split.
  { unfold ref_pin_group_name, pin_group_name. now rewrite !append_assoc. }
  unfold put_excitation, find_pin_group at 1 2. cbn [pin_groups].
  fold (find_pin_group (pin_group_name e)
          (ensure_pin_group (ref_pin_group_name e) (reference_designator e) n
             (ensure_pin_group (pin_group_name e) (reference_designator e) p db))).
  fold (find_pin_group (ref_pin_group_name e)
          (ensure_pin_group (ref_pin_group_name e) (reference_designator e) n
             (ensure_pin_group (pin_group_name e) (reference_designator e) p db))).
  split; [| split; [| split]].
  - rewrite (find_pin_group_ensure_other _ _ _ _ _ (ref_name_differs e)).
    apply find_pin_group_ensure.
  - rewrite find_pin_group_ensure. f_equal.
    apply backing_group_ensure_other.
    rewrite String.eqb_sym. apply ref_name_differs.
  - unfold export_properties. cbn [excitations].
    apply (find_entry_put
             (mkEntry (name e) (reference_designator e) (type e) (magnitude e)
                      false
                      (PinGroup (pin_group_name e))
                      (PinGroup (ref_pin_group_name e)))).
  - repeat split.
Qed.

Lemma net_net_entry_round_trip_witness :
  exists db' x,
    apply_entry even_share vsource_u2 (board_with_pins "U2" "1V0" 3) = Ok db' /\
    pin_groups db'
      = [mkPinGroup "pg_VSOURCE_U2_1V0_GND_U2" "U2" ["1"; "2"; "3"];
         mkPinGroup "pg_VSOURCE_U2_1V0_GND_U2_ref" "U2" ["G1"]] /\
    find_entry "VSOURCE_U2_1V0_GND" (export_properties db') = Some x /\
    type x = "voltage" /\
    magnitude x = 1 /\
    positive_terminal x = PinGroup "pg_VSOURCE_U2_1V0_GND_U2" /\
    negative_terminal x = PinGroup "pg_VSOURCE_U2_1V0_GND_U2_ref".
Proof.
  destruct (net_net_entry_round_trip even_share vsource_u2
              (board_with_pins "U2" "1V0" 3) "1V0" "GND"
              eq_refl eq_refl eq_refl)
    as [db' [x [Hrun [_ [_ [_ [_ [Hfind [Htype [Hmag [Hpos Hneg]]]]]]]]]]].
  exists db', x. split; [exact Hrun |].
  split; [vm_compute in Hrun; injection Hrun as <-; reflexivity |].
  repeat split; assumption.
Defined.

(** C6 as the specification words it fails on a distributed entry:
    [isource_u1] is a net/net entry, and after the apply there is no
    pin group [pg_ISOURCE_U1], whatever the share of a terminal. *)
Lemma distributed_entry_has_no_positive_group :
  ~ exists share : Q -> nat -> Q,
      net_net_round_trip share isource_u1 (board_with_pins "U1" "1V0" 3).
Proof.
  intros [share [db' [x [Hrun [Hgroup _]]]]].
  vm_compute in Hrun. injection Hrun as <-.
  vm_compute in Hgroup. discriminate.
Qed.



(** The even share passes the repository's test. *)
Lemma even_share_passes_test_15c : passes_test_15c even_share.
Proof.
  unfold passes_test_15c.
  eexists. split; [vm_compute; reflexivity |].
  split; [vm_compute; reflexivity |].
  unfold export_properties, excitations.
  repeat (apply Forall_cons; [repeat split |]).
  apply Forall_nil.
Qed.


End Sources.
